(** * DC Hub MCP server: credential propagation, backend client, audit sink

    A shallow embedding of [dchub_mcp_server.py]: the ASGI middleware that
    captures the caller's API key in a [ContextVar], the backend client
    [_api_get], the audit sink [_track_mcp_request] and the six tool
    handlers, followed by the properties proved about them. *)

From Stdlib Require Import ZArith List String Ascii Bool Lia PrimFloat DecimalString.
Set Warnings "-inexact-float,-register-all".
Import ListNotations.
Local Open Scope string_scope.
Local Open Scope Z_scope.

(** ** Python values *)

(** A Python [str] is represented by its UTF-8 encoding held in a Rocq
    [string]; [bytes] objects are Rocq strings too.  Python [int] is
    unbounded, hence [Z]; Python [float] is an IEEE 754 double, hence
    a primitive float. *)

Definition bytes := string.

Inductive pyval : Type :=
| VNone
| VStr (s : string)
| VInt (z : Z)
| VFloat (f : float).

(** Truth value testing, as used by [if v] and [x if x else None]:
    [None], the empty string, integer zero and float zero (either sign)
    are false; NaN is true. *)
Definition truthy (v : pyval) : bool :=
  match v with
  | VNone => false
  | VStr s => negb (String.eqb s "")
  | VInt z => negb (Z.eqb z 0)
  | VFloat f => negb (PrimFloat.eqb f 0%float)
  end.

(** A [dict] with string keys, in insertion order. *)
Definition dict (V : Type) := list (string * V).

Fixpoint dict_get {V} (k : string) (d : dict V) : option V :=
  match d with
  | [] => None
  | (k', v) :: d' => if String.eqb k k' then Some v else dict_get k d'
  end.

(** [d[k] = v]: an existing key keeps its position, a new one goes last. *)
Fixpoint dict_set {V} (k : string) (v : V) (d : dict V) : dict V :=
  match d with
  | [] => [(k, v)]
  | (k', v') :: d' =>
      if String.eqb k k' then (k', v) :: d' else (k', v') :: dict_set k v d'
  end.

(** [dict(pairs)]: later pairs overwrite earlier ones. *)
Definition dict_of_pairs {V} (l : list (string * V)) : dict V :=
  fold_left (fun d kv => dict_set (fst kv) (snd kv) d) l [].

(** [{k: v for k, v in d.items() if v}] *)
Definition keep_truthy (d : dict pyval) : dict pyval :=
  filter (fun kv => truthy (snd kv)) d.

(** [min(a, b)] on integers. *)
Definition py_min (a b : Z) : Z := if Z.ltb b a then b else a.

(** *** Strings and bytes *)

Definition byte_val (c : ascii) : Z := Z.of_N (N_of_ascii c).

Definition in_range (lo hi : Z) (c : ascii) : bool :=
  (lo <=? byte_val c) && (byte_val c <=? hi).

Definition is_cont (c : ascii) : bool := in_range 128 191 c.

(** Range of the second byte of a three-byte sequence: no overlong forms
    after 0xE0, no surrogates after 0xED. *)
Definition second_of_3 (b0 b1 : ascii) : bool :=
  if byte_val b0 =? 224 then in_range 160 191 b1
  else if byte_val b0 =? 237 then in_range 128 159 b1
  else is_cont b1.

(** Range of the second byte of a four-byte sequence: no overlong forms
    after 0xF0, nothing above U+10FFFF after 0xF4. *)
Definition second_of_4 (b0 b1 : ascii) : bool :=
  if byte_val b0 =? 240 then in_range 144 191 b1
  else if byte_val b0 =? 244 then in_range 128 143 b1
  else is_cont b1.

(** What the strict UTF-8 codec accepts. *)
Fixpoint utf8_valid (s : string) : bool :=
  match s with
  | EmptyString => true
  | String b0 r0 =>
      if in_range 0 127 b0 then utf8_valid r0
      else
        match r0 with
        | EmptyString => false
        | String b1 r1 =>
            if in_range 194 223 b0 then is_cont b1 && utf8_valid r1
            else
              match r1 with
              | EmptyString => false
              | String b2 r2 =>
                  if in_range 224 239 b0
                  then second_of_3 b0 b1 && is_cont b2 && utf8_valid r2
                  else
                    match r2 with
                    | EmptyString => false
                    | String b3 r3 =>
                        in_range 240 244 b0 && second_of_4 b0 b1
                        && is_cont b2 && is_cont b3 && utf8_valid r3
                    end
              end
        end
  end.

(** [s.split(sep)] for a one-character separator (both call sites of the
    program pass one: ["&"] and ["="]).  The result is never empty. *)
Fixpoint str_split (sep : ascii) (s : string) : list string :=
  match s with
  | EmptyString => [EmptyString]
  | String c r =>
      if Ascii.eqb c sep then EmptyString :: str_split sep r
      else
        match str_split sep r with
        | p :: ps => String c p :: ps
        | [] => [String c EmptyString]
        end
  end.

(** [s.split(sep, 1)]: cut at the first separator only. *)
Fixpoint str_split_once (sep : ascii) (s : string) : list string :=
  match s with
  | EmptyString => [EmptyString]
  | String c r =>
      if Ascii.eqb c sep then [EmptyString; r]
      else
        match str_split_once sep r with
        | p :: ps => String c p :: ps
        | [] => [String c EmptyString]
        end
  end.

(** [s.startswith(p)] *)
Definition startswith (s p : string) : bool := String.prefix p s.

(** [s[:n]]: the first [n] characters.  A character starts at every byte
    that is not a continuation byte. *)
Fixpoint str_take (n : nat) (s : string) : string :=
  match s with
  | EmptyString => EmptyString
  | String c r =>
      if is_cont c then String c (str_take n r)
      else
        match n with
        | O => EmptyString
        | S m => String c (str_take m r)
        end
  end.

(** [str(n)] for an integer. *)
Definition str_of_int (z : Z) : string := NilZero.string_of_int (Z.to_int z).

(** ** Exceptions *)

(** The exception classes the program can meet.  The first four derive
    from [BaseException] only; the [requests_*] ones derive from
    [requests.RequestException]. *)
Inductive exn_class : Type :=
| KeyboardInterrupt
| SystemExit
| GeneratorExit
| CancelledError
| RuntimeError
| RecursionError
| ValueError
| TypeError
| IndexError
| OSError
| UnicodeDecodeError
| sqlite3_OperationalError
| sqlite3_DatabaseError
| sqlite3_ProgrammingError
| requests_RequestException
| requests_HTTPError
| requests_ConnectionError
| requests_Timeout
| requests_TooManyRedirects
| requests_InvalidURL
| requests_JSONDecodeError.

Record exn : Type := Exn { exn_cls : exn_class; exn_str : string }.

(** [isinstance(exc, Exception)] *)
Definition is_Exception (e : exn) : bool :=
  match exn_cls e with
  | KeyboardInterrupt | SystemExit | GeneratorExit | CancelledError => false
  | _ => true
  end.

(** [isinstance(exc, requests.RequestException)] *)
Definition is_RequestException (e : exn) : bool :=
  match exn_cls e with
  | requests_RequestException | requests_HTTPError | requests_ConnectionError
  | requests_Timeout | requests_TooManyRedirects | requests_InvalidURL
  | requests_JSONDecodeError => true
  | _ => false
  end.

(** [b.decode("utf-8")] *)
Definition decode_utf8 (b : bytes) : exn + string :=
  if utf8_valid b then inr b
  else inl (Exn UnicodeDecodeError "'utf-8' codec can't decode bytes").

(** ** JSON *)

(** What [resp.json()] can return. *)
Inductive json : Type :=
| JNull
| JBool (b : bool)
| JInt (z : Z)
| JFloat (f : float)
| JStr (s : string)
| JList (l : list json)
| JDict (d : list (string * json)).

(** The text [json.dumps(obj, indent=indent)], kept symbolic: equal
    arguments give equal text. *)
Inductive json_text : Type :=
| json_dumps (obj : json) (indent : Z).

(** ** The HTTP library ([requests]) *)

(** The arguments of one [requests.get(url, params=..., headers=...,
    timeout=...)] call. *)
Record request : Type := Request {
  req_url : string;
  req_params : dict pyval;
  req_headers : dict string;
  req_timeout : Z
}.

(** A response: status line, final URL, and the body as [resp.json()]
    sees it: the value it decodes to, or the exception the decoder
    raises on it.  That exception is [requests.JSONDecodeError] for a
    body that is not JSON; on a body that is JSON the decoder can still
    raise [ValueError] (an integer literal beyond the interpreter's limit
    of digits) or [RecursionError] (nesting too deep). *)
Record Response : Type := MkResponse {
  status_code : Z;
  reason : string;
  resp_url : string;
  body : exn + json
}.

(** [requests.get] either raises or hands back a response. *)
Inductive http_outcome : Type :=
| HttpRaises (e : exn)
| HttpResponds (r : Response).

(** [Response.raise_for_status]: [HTTPError] for a status in 400..599,
    nothing for any other status. *)
Definition http_error_msg (r : Response) : string :=
  if (400 <=? status_code r) && (status_code r <? 500)
  then str_of_int (status_code r) ++ " Client Error: " ++ reason r
       ++ " for url: " ++ resp_url r
  else if (500 <=? status_code r) && (status_code r <? 600)
  then str_of_int (status_code r) ++ " Server Error: " ++ reason r
       ++ " for url: " ++ resp_url r
  else "".

Definition raise_for_status (r : Response) : exn + unit :=
  if truthy (VStr (http_error_msg r))
  then inl (Exn requests_HTTPError (http_error_msg r))
  else inr tt.

(** [Response.json]: the decoded body, or the decoder's exception as it
    is: [requests.JSONDecodeError] (a [RequestException] since requests
    2.27), [ValueError], [RecursionError]. *)
Definition Response_json (r : Response) : exn + json :=
  match body r with
  | inr j => inr j
  | inl e => inl e
  end.

(** The query string [requests] puts on the wire: pairs whose value is
    [None] are left out, all others are encoded. *)
Definition wire_query (r : request) : dict pyval :=
  filter (fun kv => match snd kv with VNone => false | _ => true end)
         (req_params r).

(** ** The audit store (SQLite) *)

(** One row of table [mcp_requests]; the [params] column holds
    [json.dumps] of the mapping recorded here. *)
Record audit_row : Type := AuditRow {
  row_timestamp : string;
  row_tool : string;
  row_params : dict pyval;
  row_source : string
}.

(** The points at which the audit sink can fail. *)
Inductive audit_op : Type :=
| OpConnect | OpCreateTable | OpDumps | OpInsert | OpCommit | OpClose.

(** ** Log records *)

Inductive log_record : Type :=
| LogDebug (msg : string)
| LogError_api_call_failed (path : string) (params : option (dict pyval))
                           (exc : exn)
| LogWarning_track_failed (exc : exn).

(** ** The world a request runs in *)

Record world : Type := World {
  environ : dict string;
  (** value of [_current_api_key] in the current context; [None]: unset *)
  _current_api_key : option string;
  (** the backend and the network, given the calls made so far *)
  backend : list request -> request -> http_outcome;
  (** the [requests.get] calls made so far, oldest first *)
  sent : list request;
  (** which audit operations fail, and how *)
  audit_fault : audit_op -> option exn;
  (** table [mcp_requests]; [None]: not created yet *)
  mcp_requests : option (list audit_row);
  (** [datetime.now(timezone.utc).isoformat()] *)
  utcnow : string;
  logged : list log_record
}.

Definition with_api_key (v : option string) (w : world) : world :=
  World (environ w) v (backend w) (sent w) (audit_fault w)
        (mcp_requests w) (utcnow w) (logged w).

Definition with_sent (l : list request) (w : world) : world :=
  World (environ w) (_current_api_key w) (backend w) l (audit_fault w)
        (mcp_requests w) (utcnow w) (logged w).

Definition with_audit_fault (f : audit_op -> option exn) (w : world) : world :=
  World (environ w) (_current_api_key w) (backend w) (sent w) f
        (mcp_requests w) (utcnow w) (logged w).

Definition with_mcp_requests (t : option (list audit_row)) (w : world) : world :=
  World (environ w) (_current_api_key w) (backend w) (sent w) (audit_fault w)
        t (utcnow w) (logged w).

Definition with_logged (l : list log_record) (w : world) : world :=
  World (environ w) (_current_api_key w) (backend w) (sent w) (audit_fault w)
        (mcp_requests w) (utcnow w) l.

(** [os.environ.get(name, default)] *)
Definition environ_get (name default : string) (w : world) : string :=
  match dict_get name (environ w) with
  | Some v => v
  | None => default
  end.

Definition BACKEND_BASE (w : world) : string :=
  environ_get "BACKEND_BASE_URL" "http://127.0.0.1:5000" w.

Definition DB_PATH (w : world) : string :=
  environ_get "DB_PATH" "dchub_data.db" w.

(** ** Computations: state and exceptions *)

Definition M (A : Type) : Type := world -> (exn + A) * world.

Definition ret {A} (a : A) : M A := fun w => (inr a, w).

Definition raise {A} (e : exn) : M A := fun w => (inl e, w).

Definition bind {A B} (m : M A) (k : A -> M B) : M B :=
  fun w =>
    match m w with
    | (inl e, w') => (inl e, w')
    | (inr a, w') => k a w'
    end.

Declare Scope py_scope.
Delimit Scope py_scope with py.
Notation "x <- m ;; k" := (bind m (fun x => k))
  (at level 61, m at next level, right associativity) : py_scope.
Notation "m ;; k" := (bind m (fun _ => k))
  (at level 61, right associativity) : py_scope.
Local Open Scope py_scope.

Definition lift {A} (r : exn + A) : M A := fun w => (r, w).

Definition gets {A} (f : world -> A) : M A := fun w => (inr (f w), w).

Definition modify (f : world -> world) : M unit := fun w => (inr tt, f w).

(** [try: body  except <class> as exc: handler(exc)]; an exception the
    clause does not match goes on to the caller. *)
Definition try_except {A} (body : M A) (matches : exn -> bool)
           (handler : exn -> M A) : M A :=
  fun w =>
    match body w with
    | (inl e, w') => if matches e then handler e w' else (inl e, w')
    | (inr a, w') => (inr a, w')
    end.

(** [try: body  finally: cleanup] *)
Definition try_finally {A} (body : M A) (cleanup : M unit) : M A :=
  fun w =>
    match body w with
    | (r, w') =>
        match cleanup w' with
        | (inl e, w'') => (inl e, w'')
        | (inr _, w'') => (r, w'')
        end
    end.

(** [logging.basicConfig(level=logging.INFO)]: a debug record is below
    the level and is dropped; warnings and errors are kept. *)
Definition log_enabled (r : log_record) : bool :=
  match r with
  | LogDebug _ => false
  | LogError_api_call_failed _ _ _ => true
  | LogWarning_track_failed _ => true
  end.

(** [logger.debug], [logger.warning], [logger.error], by the record. *)
Definition logger_log (r : log_record) : M unit :=
  if log_enabled r
  then modify (fun w => with_logged (logged w ++ [r]) w)
  else ret tt.

(** ** The context variable *)

(** [_current_api_key.get()]: the bound value, or the default [""]. *)
Definition ContextVar_get : M string :=
  gets (fun w => match _current_api_key w with Some v => v | None => "" end).

(** [_current_api_key.set(v)]: binds [v]; the token remembers what was
    bound before ([None] for [Token.MISSING]). *)
Definition ContextVar_set (v : string) : M (option string) :=
  old <- gets _current_api_key ;;
  modify (with_api_key (Some v)) ;;
  ret old.

(** [_current_api_key.reset(token)]: back to what the token remembers. *)
Definition ContextVar_reset (token : option string) : M unit :=
  modify (with_api_key token).

(** ** Helpers of the server *)

(** [http_requests.get(url, params=params, headers=headers,
    timeout=timeout)]: the call is recorded, the backend answers. *)
Definition http_requests_get (url : string) (params : dict pyval)
           (headers : dict string) (timeout : Z) : M Response :=
  fun w =>
    let r := Request url params headers timeout in
    let w' := with_sent (sent w ++ [r]) w in
    match backend w (sent w) r with
    | HttpRaises e => (inl e, w')
    | HttpResponds resp => (inr resp, w')
    end.

(** [params or {}] *)
Definition params_or_empty (params : option (dict pyval)) : dict pyval :=
  match params with
  | Some d => d
  | None => []
  end.

(** The headers [_api_get] builds: empty, with ["X-API-Key"] added when
    the current key is not empty. *)
Definition forwarded_headers (api_key : string) : dict string :=
  if truthy (VStr api_key) then [("X-API-Key", api_key)] else [].

Definition error_payload (detail : string) : json :=
  JDict [("error", JStr ("Backend request failed: " ++ detail))].

(** [_api_get(path, params=None)] *)
Definition _api_get (path : string) (params : option (dict pyval)) : M json :=
  base <- gets BACKEND_BASE ;;
  let url := base ++ path in
  api_key <- ContextVar_get ;;
  let headers := forwarded_headers api_key in
  (if truthy (VStr api_key)
   then logger_log (LogDebug ("Forwarding API key to backend: "
                                ++ str_take 16 api_key ++ "..."))
   else ret tt) ;;
  try_except
    (resp <- http_requests_get url (params_or_empty params) headers 15 ;;
     lift (raise_for_status resp) ;;
     lift (Response_json resp))
    is_RequestException
    (fun exc =>
       logger_log (LogError_api_call_failed path params exc) ;;
       ret (error_payload (exn_str exc))).

(** One fallible step of the audit sink: it raises when the storage
    says so, and runs otherwise. *)
Definition audit_step {A} (op : audit_op) (run : M A) : M A :=
  fault <- gets (fun w => audit_fault w op) ;;
  match fault with
  | Some e => raise e
  | None => run
  end.

(** [sqlite3.connect(path)] *)
Definition sqlite3_connect (path : string) : M unit :=
  audit_step OpConnect (ret tt).

(** [CREATE TABLE IF NOT EXISTS mcp_requests (...)] *)
Definition create_table_if_not_exists : M unit :=
  modify (fun w =>
            match mcp_requests w with
            | Some _ => w
            | None => with_mcp_requests (Some []) w
            end).

(** [INSERT INTO mcp_requests ...]: the row is pending until [commit]. *)
Definition insert_row (row : audit_row) : M audit_row :=
  t <- gets mcp_requests ;;
  match t with
  | Some _ => ret row
  | None => raise (Exn sqlite3_OperationalError "no such table: mcp_requests")
  end.

(** [conn.commit()] *)
Definition commit_row (row : audit_row) : M unit :=
  modify (fun w =>
            match mcp_requests w with
            | Some rows => with_mcp_requests (Some (rows ++ [row])%list) w
            | None => w
            end).

(** [_track_mcp_request(tool_name, params, source="mcp")] *)
Definition _track_mcp_request (tool_name : string) (params : dict pyval)
           (source : string) : M unit :=
  try_except
    (path <- gets DB_PATH ;;
     sqlite3_connect path ;;
     audit_step OpCreateTable create_table_if_not_exists ;;
     now <- gets utcnow ;;
     text <- audit_step OpDumps (ret params) ;;
     pending <- audit_step OpInsert
                  (insert_row (AuditRow now tool_name text source)) ;;
     audit_step OpCommit (commit_row pending) ;;
     audit_step OpClose (ret tt))
    is_Exception
    (fun exc => logger_log (LogWarning_track_failed exc)).

(** ** The tools *)

(** Keyword arguments are positional here; the defaults of the source
    are [""] for every string, [0] for [year], [0.0] for the coordinates,
    [25] for [limit] and [radius_miles] ([10] for the [limit] of
    [get_news]) and ["overview"] for [metric]. *)

Definition search_facilities (query country state city provider : string)
           (limit : Z) : M json_text :=
  let params :=
    keep_truthy [("query", VStr query); ("country", VStr country);
                 ("state", VStr state); ("city", VStr city);
                 ("provider", VStr provider);
                 ("limit", VInt (py_min limit 100))] in
  _track_mcp_request "search_facilities" params "mcp" ;;
  result <- _api_get "/api/v1/facilities" (Some params) ;;
  ret (json_dumps result 2).

Definition get_facility (facility_id : string) : M json_text :=
  _track_mcp_request "get_facility" [("facility_id", VStr facility_id)] "mcp" ;;
  result <- _api_get ("/api/v1/facilities/" ++ facility_id) None ;;
  ret (json_dumps result 2).

Definition list_transactions (year : Z) (buyer seller : string) (limit : Z)
  : M json_text :=
  let params :=
    keep_truthy [("year", if truthy (VInt year) then VInt year else VNone);
                 ("buyer", VStr buyer); ("seller", VStr seller);
                 ("limit", VInt (py_min limit 100))] in
  _track_mcp_request "list_transactions" params "mcp" ;;
  result <- _api_get "/api/v1/transactions" (Some params) ;;
  ret (json_dumps result 2).

Definition get_market_intel (market metric : string) : M json_text :=
  _track_mcp_request "get_market_intel"
    [("market", VStr market); ("metric", VStr metric)] "mcp" ;;
  result <- (if truthy (VStr market)
             then _api_get ("/api/v1/markets/" ++ market) None
             else _api_get "/api/v1/markets/list" None) ;;
  ret (json_dumps result 2).

Definition get_news (topic source : string) (limit : Z) : M json_text :=
  let params :=
    keep_truthy [("topic", VStr topic); ("source", VStr source);
                 ("limit", VInt (py_min limit 50))] in
  _track_mcp_request "get_news" params "mcp" ;;
  result <- _api_get "/api/v1/news" (Some params) ;;
  ret (json_dumps result 2).

Definition analyze_site (latitude longitude : float) (address : string)
           (radius_miles : Z) : M json_text :=
  let params :=
    keep_truthy
      [("lat", if truthy (VFloat latitude) then VFloat latitude else VNone);
       ("lng", if truthy (VFloat longitude) then VFloat longitude else VNone);
       ("address", VStr address);
       ("radius", VInt (radius_miles * 1609))] in
  _track_mcp_request "analyze_site" params "mcp" ;;
  result <- _api_get "/api/v1/energy/site-analysis" (Some params) ;;
  ret (json_dumps result 2).

(** The registry: one invocation of a named tool with its arguments. *)
Inductive tool_call : Type :=
| Call_search_facilities (query country state city provider : string)
                         (limit : Z)
| Call_get_facility (facility_id : string)
| Call_list_transactions (year : Z) (buyer seller : string) (limit : Z)
| Call_get_market_intel (market metric : string)
| Call_get_news (topic source : string) (limit : Z)
| Call_analyze_site (latitude longitude : float) (address : string)
                    (radius_miles : Z).

Definition dispatch (c : tool_call) : M json_text :=
  match c with
  | Call_search_facilities q co st ci pr l => search_facilities q co st ci pr l
  | Call_get_facility f => get_facility f
  | Call_list_transactions y b s l => list_transactions y b s l
  | Call_get_market_intel m k => get_market_intel m k
  | Call_get_news t s l => get_news t s l
  | Call_analyze_site la lo a r => analyze_site la lo a r
  end.

(** ** The ASGI middleware *)

(** The part of the connection scope the middleware reads.  The ASGI
    server gives header names in lower case. *)
Record scope : Type := Scope {
  scope_type : string;
  scope_headers : option (list (bytes * bytes));
  scope_query_string : option bytes
}.

(** The [for param in query_string.split("&")] loop: the value of the
    first piece that starts with ["api_key="], if there is one. *)
Fixpoint api_key_param (pieces : list string) : exn + option string :=
  match pieces with
  | [] => inr None
  | param :: rest =>
      if startswith param "api_key="
      then match nth_error (str_split_once "=" param) 1 with
           | Some v => inr (Some v)
           | None => inl (Exn IndexError "list index out of range")
           end
      else api_key_param rest
  end.

(** [scope.get("headers", [])] *)
Definition scope_get_headers (sc : scope) : list (bytes * bytes) :=
  match scope_headers sc with
  | Some l => l
  | None => []
  end.

(** [scope.get("query_string", b"")] *)
Definition scope_get_query_string (sc : scope) : bytes :=
  match scope_query_string sc with
  | Some q => q
  | None => ""
  end.

(** Lines 334 to 343 of the source: the key from the [x-api-key] header,
    else from the query string.  Nothing here touches the world. *)
Definition request_api_key (sc : scope) : exn + string :=
  let headers := dict_of_pairs (scope_get_headers sc) in
  match decode_utf8 (match dict_get "x-api-key" headers with
                     | Some v => v
                     | None => ""
                     end) with
  | inl e => inl e
  | inr api_key =>
      if negb (truthy (VStr api_key))
      then
        match decode_utf8 (scope_get_query_string sc) with
        | inl e => inl e
        | inr query_string =>
            match api_key_param (str_split "&" query_string) with
            | inl e => inl e
            | inr (Some v) => inr v
            | inr None => inr api_key
            end
        end
      else inr api_key
  end.

(** [APIKeyMiddleware(app).__call__(scope, receive, send)]; [app] stands
    for [self.app] applied to the same three arguments. *)
Definition APIKeyMiddleware_call (app : scope -> M unit) (sc : scope) : M unit :=
  if String.eqb (scope_type sc) "http"
  then
    api_key <- lift (request_api_key sc) ;;
    token <- ContextVar_set api_key ;;
    try_finally (app sc) (ContextVar_reset token)
  else app sc.

(** ** Requests handled concurrently *)

(** The event loop runs every request as a task of its own.  A task owns
    a [Context], a copy of the server's taken when the task is created;
    [_current_api_key] is read and written in the context of the task
    that is running.  Tasks give way to each other at [await] only, so a
    task advances by atomic segments: entering the middleware up to
    [await self.app(...)], each piece of the downstream application, and
    the [finally] clause. *)

(** What the downstream application does between two suspensions: it
    runs a tool handler (the handlers contain no [await]), it merely
    waits, or it fails. *)
Inductive app_step : Type :=
| AppCall (c : tool_call)
| AppAwait
| AppRaise (e : exn).

Definition run_app_step (st : app_step) : M unit :=
  match st with
  | AppCall c => dispatch c ;; ret tt
  | AppAwait => ret tt
  | AppRaise e => raise e
  end.

(** The same application run without interruption. *)
Fixpoint run_app (steps : list app_step) : M unit :=
  match steps with
  | [] => ret tt
  | st :: rest => run_app_step st ;; run_app rest
  end.

(** Where a task stands: not started, inside [await self.app(...)]
    holding the token of its [set] (none for a scope that is not
    ["http"]), or done. *)
Inductive task_state : Type :=
| Pending
| Running (token : option (option string)) (todo : list app_step)
| Finished (result : exn + unit).

Record task : Type := Task {
  t_scope : scope;
  t_app : list app_step;
  (** binding of [_current_api_key] in the task's own context *)
  t_context : option string;
  t_state : task_state;
  (** the backend calls made while this task was running *)
  t_calls : list request
}.

(** The [finally] clause of the middleware. *)
Definition leave (token : option (option string)) : M unit :=
  match token with
  | Some tok => ContextVar_reset tok
  | None => ret tt
  end.

(** The next atomic segment of a task. *)
Definition next_segment (t : task) : world -> task_state * world :=
  fun w =>
    match t_state t with
    | Pending =>
        if String.eqb (scope_type (t_scope t)) "http"
        then
          match (api_key <- lift (request_api_key (t_scope t)) ;;
                 ContextVar_set api_key) w with
          | (inl e, w') => (Finished (inl e), w')
          | (inr tok, w') => (Running (Some tok) (t_app t), w')
          end
        else (Running None (t_app t), w)
    | Running token [] =>
        match leave token w with
        | (inl e, w') => (Finished (inl e), w')
        | (inr _, w') => (Finished (inr tt), w')
        end
    | Running token (st :: todo) =>
        match run_app_step st w with
        | (inr _, w') => (Running token todo, w')
        | (inl e, w') =>
            match leave token w' with
            | (inl e', w'') => (Finished (inl e'), w'')
            | (inr _, w'') => (Finished (inl e), w'')
            end
        end
    | Finished r => (Finished r, w)
    end.

(** One segment of task [t], run in the task's context ([Context.run]):
    the variable is loaded from the task, the segment runs, the variable
    goes back to the task and the caller's binding is restored. *)
Definition task_step (t : task) (w : world) : task * world :=
  let w0 := with_api_key (t_context t) w in
  let '(st, w1) := next_segment t w0 in
  (Task (t_scope t) (t_app t) (_current_api_key w1) st
        (t_calls t ++ skipn (List.length (sent w0)) (sent w1)),
   with_api_key (_current_api_key w) w1).

Record system : Type := System {
  sys_world : world;
  sys_tasks : nat -> task
}.

Definition set_task (i : nat) (t : task) (ts : nat -> task) : nat -> task :=
  fun j => if Nat.eqb j i then t else ts j.

(** The scheduler resumes task [i]. *)
Definition sys_step (s : system) (i : nat) : system :=
  let '(t, w) := task_step (sys_tasks s i) (sys_world s) in
  System w (set_task i t (sys_tasks s)).

(** A schedule names the task resumed at each turn. *)
Definition run_schedule (schedule : list nat) (s : system) : system :=
  fold_left sys_step schedule s.

(** Task [t] resumed [n] times in a row, no other task in between. *)
Fixpoint run_alone (n : nat) (t : task) (w : world) : task * world :=
  match n with
  | O => (t, w)
  | S n' => let '(t', w') := task_step t w in run_alone n' t' w'
  end.

(** A new task: nothing done yet, its context a copy of the server's. *)
Definition new_task (sc : scope) (app : list app_step) (w : world) : task :=
  Task sc app (_current_api_key w) Pending [].

(** The server before any request is handled: the variable is unset in
    its context, and every request waits as a new task. *)
Definition initial (s : system) : Prop :=
  _current_api_key (sys_world s) = None /\
  forall i, sys_tasks s i
            = new_task (t_scope (sys_tasks s i)) (t_app (sys_tasks s i))
                       (sys_world s).

(** ** Requests handled one after the other *)

(** The boundary worlds when a worker handles the requests in turn, in
    one context: before the first, between any two, after the last. *)
Fixpoint serve (reqs : list (scope * (scope -> M unit))) (w : world)
  : list world :=
  match reqs with
  | [] => [w]
  | (sc, app) :: rest =>
      w :: serve rest (snd (APIKeyMiddleware_call app sc w))
  end.

(** ** Observations *)

(** The backend calls made while [m] runs from [w]. *)
Definition calls_during {A} (m : M A) (w : world) : list request :=
  skipn (List.length (sent w)) (sent (snd (m w))).

(** What [_current_api_key.get()] returns in [w]. *)
Definition current_key (w : world) : string :=
  match _current_api_key w with
  | Some v => v
  | None => ""
  end.

(** The storage fails, if at all, with ordinary exceptions (instances of
    [Exception]), not with [KeyboardInterrupt] and the like. *)
Definition ordinary_faults (w : world) : Prop :=
  forall op e, audit_fault w op = Some e -> is_Exception e = true.

(** The one call [_api_get] makes. *)
Definition api_request (path : string) (params : option (dict pyval))
           (w : world) : request :=
  Request (BACKEND_BASE w ++ path) (params_or_empty params)
          (forwarded_headers (current_key w)) 15.

(** The part of the world the audit sink leaves alone. *)
Definition same_outside_audit (w w' : world) : Prop :=
  environ w' = environ w /\
  _current_api_key w' = _current_api_key w /\
  backend w' = backend w /\
  sent w' = sent w /\
  audit_fault w' = audit_fault w /\
  utcnow w' = utcnow w.

(** What the outcome of [_api_get] depends on. *)
Definition same_for_backend (w w' : world) : Prop :=
  environ w' = environ w /\ _current_api_key w' = _current_api_key w /\
  backend w' = backend w /\ sent w' = sent w.

(** ** The shape of the handlers *)

(** The shape shared by the handlers: record, fetch, serialize. *)
Definition tool_body (tool_name : string) (recorded : dict pyval)
           (path : string) (query : option (dict pyval)) : M json_text :=
  _track_mcp_request tool_name recorded "mcp" ;;
  result <- _api_get path query ;;
  ret (json_dumps result 2).

Definition tool_name (c : tool_call) : string :=
  match c with
  | Call_search_facilities _ _ _ _ _ _ => "search_facilities"
  | Call_get_facility _ => "get_facility"
  | Call_list_transactions _ _ _ _ => "list_transactions"
  | Call_get_market_intel _ _ => "get_market_intel"
  | Call_get_news _ _ _ => "get_news"
  | Call_analyze_site _ _ _ _ => "analyze_site"
  end.

(** Every handler is an instance of that shape. *)
Definition tool_path (c : tool_call) : string :=
  match c with
  | Call_search_facilities _ _ _ _ _ _ => "/api/v1/facilities"
  | Call_get_facility f => "/api/v1/facilities/" ++ f
  | Call_list_transactions _ _ _ _ => "/api/v1/transactions"
  | Call_get_market_intel m _ =>
      if truthy (VStr m) then "/api/v1/markets/" ++ m
      else "/api/v1/markets/list"
  | Call_get_news _ _ _ => "/api/v1/news"
  | Call_analyze_site _ _ _ _ => "/api/v1/energy/site-analysis"
  end.

(** The mapping the handler hands to [_api_get]. *)
Definition tool_query (c : tool_call) : option (dict pyval) :=
  match c with
  | Call_search_facilities q co st ci pr l =>
      Some (keep_truthy [("query", VStr q); ("country", VStr co);
                         ("state", VStr st); ("city", VStr ci);
                         ("provider", VStr pr);
                         ("limit", VInt (py_min l 100))])
  | Call_get_facility _ => None
  | Call_list_transactions y b s l =>
      Some (keep_truthy [("year", if truthy (VInt y) then VInt y else VNone);
                         ("buyer", VStr b); ("seller", VStr s);
                         ("limit", VInt (py_min l 100))])
  | Call_get_market_intel _ _ => None
  | Call_get_news t s l =>
      Some (keep_truthy [("topic", VStr t); ("source", VStr s);
                         ("limit", VInt (py_min l 50))])
  | Call_analyze_site la lo a r =>
      Some (keep_truthy
              [("lat", if truthy (VFloat la) then VFloat la else VNone);
               ("lng", if truthy (VFloat lo) then VFloat lo else VNone);
               ("address", VStr a);
               ("radius", VInt (r * 1609))])
  end.

(** The mapping the handler hands to [_track_mcp_request]. *)
Definition tool_recorded (c : tool_call) : dict pyval :=
  match c with
  | Call_get_facility f => [("facility_id", VStr f)]
  | Call_get_market_intel m k => [("market", VStr m); ("metric", VStr k)]
  | _ => params_or_empty (tool_query c)
  end.

(** The handler behind the middleware serving one tool invocation. *)
Definition serving (c : tool_call) : scope -> M unit :=
  fun _ => dispatch c ;; ret tt.

(** ** The credential of a request, as specified *)

(** [sep.join(pieces)] *)
Fixpoint str_join (sep : string) (pieces : list string) : string :=
  match pieces with
  | [] => ""
  | [x] => x
  | x :: rest => x ++ sep ++ str_join sep rest
  end.

(** [c in s] for a character. *)
Fixpoint has_char (c : ascii) (s : string) : bool :=
  match s with
  | EmptyString => false
  | String c' r => Ascii.eqb c' c || has_char c r
  end.

Definition header_absent_or_empty (header : option bytes) : Prop :=
  header = None \/ header = Some "".

(** The credential of a request, in the words of the specification:
    the value of the header when it is present and not empty; otherwise
    the value of the first [api_key] field of the query string; otherwise
    none.  The query string is the fields joined by ["&"]. *)
Inductive forwarded_credential (header : option bytes) (query_string : bytes)
  : string -> Prop :=
| credential_from_header h :
    header = Some h -> h <> "" -> utf8_valid h = true ->
    forwarded_credential header query_string h
| credential_from_query before v after :
    header_absent_or_empty header ->
    utf8_valid query_string = true ->
    query_string = str_join "&" (before ++ ("api_key=" ++ v) :: after) ->
    Forall (fun f => has_char "&" f = false)
           (before ++ ("api_key=" ++ v) :: after) ->
    Forall (fun f => startswith f "api_key=" = false) before ->
    forwarded_credential header query_string v
| credential_absent fields :
    header_absent_or_empty header ->
    utf8_valid query_string = true ->
    query_string = str_join "&" fields ->
    Forall (fun f => has_char "&" f = false) fields ->
    Forall (fun f => startswith f "api_key=" = false) fields ->
    forwarded_credential header query_string "".

(** ** The invariant of a task *)

Definition context_key (ctx : option string) : string :=
  match ctx with
  | Some v => v
  | None => ""
  end.

(** The key a task's requests must carry: the one of its own scope. *)
Definition task_key (t : task) : string :=
  if String.eqb (scope_type (t_scope t)) "http"
  then match request_api_key (t_scope t) with
       | inr k => k
       | inl _ => ""
       end
  else "".

(** What holds of every task at every moment: the calls it has made
    carry its own key, and while it is inside the middleware its context
    binds that key. *)
Definition task_inv (t : task) : Prop :=
  Forall (fun r => req_headers r = forwarded_headers (task_key t)) (t_calls t) /\
  match t_state t with
  | Pending => t_context t = None
  | Running _ _ => context_key (t_context t) = task_key t
  | Finished _ => True
  end.

(** ** Sample worlds and requests *)

(** A backend that answers every call with [200 OK] and an empty object. *)
Definition ok_backend : list request -> request -> http_outcome :=
  fun _ _ => HttpResponds (MkResponse 200 "OK" "" (inr (JDict []))).

(** No environment variable set, no key bound, nothing sent, storage in
    order and still empty. *)
Definition quiet_world : world :=
  World [] None ok_backend [] (fun _ => None) None
        "2025-01-01T00:00:00+00:00" [].

(** A world in which the backend does not answer in time. *)
Definition timeout_world : world :=
  World [] None
        (fun _ _ => HttpRaises (Exn requests_Timeout "Read timed out."))
        [] (fun _ => None) None "2025-01-01T00:00:00+00:00" [].

(** A storage outage: every step of the sink fails. *)
Definition storage_down : audit_op -> option exn :=
  fun _ => Some (Exn sqlite3_OperationalError "unable to open database file").

(** A downstream application that calls a tool and then fails. *)
Definition failing_app : scope -> M unit :=
  fun _ => dispatch (Call_get_facility "equinix-da1") ;;
           raise (Exn RuntimeError "handler failed").

(** Two requests in flight: one with its key in the header, one with its
    key in the query string.  Every other task is idle. *)
Definition alice_scope : scope :=
  Scope "http" (Some [("x-api-key", "alice-key")]) None.

Definition bob_scope : scope :=
  Scope "http" (Some []) (Some "page=2&api_key=bob-key").

Definition two_requests : system :=
  System quiet_world
         (fun i =>
            match i with
            | 0%nat =>
                new_task alice_scope
                         [AppAwait; AppCall (Call_get_news "" "" 5); AppAwait;
                          AppCall (Call_get_facility "equinix-da1")]
                         quiet_world
            | 1%nat =>
                new_task bob_scope
                         [AppCall (Call_get_market_intel "Dallas" "overview");
                          AppAwait]
                         quiet_world
            | _ => new_task (Scope "lifespan" None None) [] quiet_world
            end).

(** Both enter the middleware before either calls the backend. *)
Definition interleaved : list nat := [0; 1; 0; 1; 0; 0; 1; 0; 1; 0]%nat.

(** ** Further observations *)

(** The rows of table [mcp_requests]; none while the table is missing. *)
Definition table_rows (t : option (list audit_row)) : list audit_row :=
  match t with
  | Some rows => rows
  | None => []
  end.

(** The first of the given audit operations that fails, if any. *)
Fixpoint first_fault_among (ops : list audit_op) (w : world) : option exn :=
  match ops with
  | [] => None
  | op :: rest =>
      match audit_fault w op with
      | Some e => Some e
      | None => first_fault_among rest w
      end
  end.

(** The operations of [_track_mcp_request] in the order it performs them. *)
Definition audit_ops_to_commit : list audit_op :=
  [OpConnect; OpCreateTable; OpDumps; OpInsert; OpCommit].

Definition audit_ops : list audit_op := (audit_ops_to_commit ++ [OpClose])%list.

(** Every byte below 128. *)
Fixpoint is_ascii (s : string) : bool :=
  match s with
  | EmptyString => true
  | String c r => (byte_val c <? 128) && is_ascii r
  end.

(** An interrupt arrives during whichever audit operation runs. *)
Definition interrupted : audit_op -> option exn :=
  fun _ => Some (Exn KeyboardInterrupt "").

(** No audit operation fails. *)
Definition healthy_store (w : world) : Prop :=
  forall op, audit_fault w op = None.

(** Running [m] from [w] makes one backend call, and leaves one more row
    in the audit table: the tool's name, the very query that was sent,
    and the source tag ["mcp"]. *)
Definition records_what_it_sends {A} (m : M A) (name : string) (w : world)
  : Prop :=
  exists r,
    calls_during m w = [r] /\
    mcp_requests (snd (m w))
    = Some (table_rows (mcp_requests w)
            ++ [AuditRow (utcnow w) name (req_params r) "mcp"])%list.

(** A world whose transport is interrupted instead of answering. *)
Definition interrupted_world : world :=
  World [("BACKEND_BASE_URL", "https://api.example.net")] (Some "k")
        (fun _ _ => HttpRaises (Exn KeyboardInterrupt ""))
        [] (fun _ => None) None "2025-01-01T00:00:00+00:00" [].

(** A backend that answers [503 Service Unavailable]. *)
Definition unavailable : Response :=
  MkResponse 503 "SERVICE UNAVAILABLE" "http://127.0.0.1:5000/api/v1/news"
             (inr (JDict [])).

Definition unavailable_world : world :=
  World [] None (fun _ _ => HttpResponds unavailable)
        [] (fun _ => None) None "2025-01-01T00:00:00+00:00" [].

(** [headers.get(b"x-api-key", b"")] on the headers of a scope. *)
Definition header_value (sc : scope) : bytes :=
  match dict_get "x-api-key" (dict_of_pairs (scope_get_headers sc)) with
  | Some v => v
  | None => ""
  end.

(** An application that binds the variable itself and does not undo it. *)
Definition rebinding_app : scope -> M unit :=
  fun _ => ContextVar_set "stolen" ;; ret tt.

(** A task keeps the variable to itself: outside the middleware its
    context binds nothing, and the token it holds inside remembers that
    nothing was bound. *)
Definition task_clean (t : task) : Prop :=
  match t_state t with
  | Pending => t_context t = None
  | Running (Some token) _ => token = None
  | Running None _ => t_context t = None
  | Finished _ => t_context t = None
  end.

(** A backend whose answer is JSON that the decoder refuses: an integer
    literal with more digits than the interpreter converts. *)
Definition oversized : Response :=
  MkResponse 200 "OK" "http://127.0.0.1:5000/api/v1/news"
             (inl (Exn ValueError
                       "Exceeds the limit (4300 digits) for integer string conversion")).

Definition oversized_world : world :=
  World [] None (fun _ _ => HttpResponds oversized)
        [] (fun _ => None) None "2025-01-01T00:00:00+00:00" [].

(** * Properties *)

Ltac unfold_m :=
  unfold bind, ret, raise, lift, gets, modify, try_except, try_finally,
    logger_log, ContextVar_get, ContextVar_set, ContextVar_reset in *.

(** ** The audit sink *)

Lemma same_outside_audit_refl w : same_outside_audit w w.
Proof. repeat split. Qed.

Lemma _track_mcp_request_frame tool_name params source w :
  same_outside_audit w (snd (_track_mcp_request tool_name params source w)).
Proof.
  unfold _track_mcp_request, sqlite3_connect, audit_step,
    create_table_if_not_exists, insert_row, commit_row.
  unfold_m. cbn.
  repeat
    (match goal with
     | |- context [match audit_fault w ?o with _ => _ end] =>
         destruct (audit_fault w o) eqn:?; cbn
     | |- context [if is_Exception ?e then _ else _] =>
         destruct (is_Exception e) eqn:?; cbn
     | |- context [match mcp_requests w with _ => _ end] =>
         destruct (mcp_requests w) eqn:?; cbn
     end);
    repeat split.
Qed.

Lemma _track_mcp_request_returns tool_name params source w :
  ordinary_faults w ->
  fst (_track_mcp_request tool_name params source w) = inr tt.
Proof.
  intros Hord.
  unfold _track_mcp_request, sqlite3_connect, audit_step,
    create_table_if_not_exists, insert_row, commit_row.
  unfold_m. cbn.
  repeat
    (match goal with
     | |- context [match audit_fault w ?o with _ => _ end] =>
         let E := fresh "E" in
         destruct (audit_fault w o) eqn:E; cbn;
         [rewrite (Hord _ _ E); cbn; try reflexivity|]
     | |- context [match mcp_requests w with _ => _ end] =>
         destruct (mcp_requests w) eqn:?; cbn
     end);
    reflexivity.
Qed.

(** ** The backend client *)

Lemma _api_get_sent path params w :
  sent (snd (_api_get path params w)) = (sent w ++ [api_request path params w])%list.
Proof.
  unfold _api_get, http_requests_get, api_request, current_key, BACKEND_BASE,
    environ_get.
  unfold_m. cbn.
  destruct (_current_api_key w) as [k|]; cbn;
    [destruct (negb (String.eqb k "")); cbn|];
    match goal with
    | |- context [backend w (sent w) ?r] => destruct (backend w (sent w) r); cbn
    end;
    repeat
      (match goal with
       | |- context [if is_RequestException ?e then _ else _] =>
           destruct (is_RequestException e); cbn
       | |- context [match raise_for_status ?r with _ => _ end] =>
           destruct (raise_for_status r); cbn
       | |- context [match Response_json ?r with _ => _ end] =>
           destruct (Response_json r); cbn
       end);
    reflexivity.
Qed.

Lemma _api_get_frame path params w :
  let w' := snd (_api_get path params w) in
  environ w' = environ w /\ _current_api_key w' = _current_api_key w /\
  backend w' = backend w /\ audit_fault w' = audit_fault w /\
  mcp_requests w' = mcp_requests w /\ utcnow w' = utcnow w.
Proof.
  unfold _api_get, http_requests_get.
  unfold_m. cbn.
  destruct (_current_api_key w) as [k|] eqn:Hk; cbn;
    [destruct (negb (String.eqb k "")); cbn|];
    match goal with
    | |- context [backend w (sent w) ?r] => destruct (backend w (sent w) r); cbn
    end;
    repeat
      (match goal with
       | |- context [if is_RequestException ?e then _ else _] =>
           destruct (is_RequestException e); cbn
       | |- context [match raise_for_status ?r with _ => _ end] =>
           destruct (raise_for_status r); cbn
       | |- context [match Response_json ?r with _ => _ end] =>
           destruct (Response_json r); cbn
       end);
    repeat split; assumption.
Qed.

(** ** The tool handlers *)

Lemma api_request_ext path query w w' :
  environ w' = environ w -> _current_api_key w' = _current_api_key w ->
  api_request path query w' = api_request path query w.
Proof.
  intros He Hk.
  unfold api_request, BACKEND_BASE, environ_get, current_key.
  now rewrite He, Hk.
Qed.

Lemma skipn_length_app {A} (l l' : list A) :
  skipn (List.length l) (l ++ l') = l'.
Proof. induction l; cbn; auto. Qed.

Lemma tool_body_sent tool_name recorded path query w :
  fst (_track_mcp_request tool_name recorded "mcp" w) = inr tt ->
  sent (snd (tool_body tool_name recorded path query w))
  = (sent w ++ [api_request path query w])%list.
Proof.
  intros Hret.
  pose proof (_track_mcp_request_frame tool_name recorded "mcp" w)
    as (He & Hk & _ & Hs & _).
  unfold tool_body, bind at 1.
  destruct (_track_mcp_request tool_name recorded "mcp" w) as [[e|[]] w1];
    cbn in *; [discriminate|].
  unfold bind.
  pose proof (_api_get_sent path query w1) as Hsent.
  destruct (_api_get path query w1) as [[e|j] w2]; cbn in *;
    rewrite Hsent, Hs, (api_request_ext _ _ _ _ He Hk); reflexivity.
Qed.

Lemma tool_body_calls tool_name recorded path query w :
  ordinary_faults w ->
  calls_during (tool_body tool_name recorded path query) w
  = [api_request path query w].
Proof.
  intros Hord. unfold calls_during.
  rewrite tool_body_sent by (apply _track_mcp_request_returns; assumption).
  apply skipn_length_app.
Qed.

Lemma dispatch_tool_body c :
  dispatch c
  = tool_body (tool_name c) (tool_recorded c) (tool_path c) (tool_query c).
Proof.
  destruct c; cbn [dispatch tool_name tool_recorded tool_path tool_query
                     params_or_empty]; try reflexivity.
  unfold get_market_intel, tool_body.
  destruct (truthy (VStr market)); reflexivity.
Qed.

Lemma quiet_world_ordinary : ordinary_faults quiet_world.
Proof. intros op e H. discriminate H. Qed.

(** ** Query construction *)

(** C8. [search_facilities(country="US", limit=150)], every other
    argument at its default, makes exactly one backend call: to the
    facilities path, with the query mapping [{"country": "US",
    "limit": 100}] and no other key. *)
Theorem search_facilities_US_150 w :
  ordinary_faults w ->
  calls_during (search_facilities "" "US" "" "" "" 150) w
  = [Request (BACKEND_BASE w ++ "/api/v1/facilities")
             [("country", VStr "US"); ("limit", VInt 100)]
             (forwarded_headers (current_key w)) 15].
Proof.
  intros Hord.
  change (search_facilities "" "US" "" "" "" 150)
    with (dispatch (Call_search_facilities "" "US" "" "" "" 150)).
  rewrite dispatch_tool_body, tool_body_calls by assumption.
  reflexivity.
Qed.

Lemma search_facilities_US_150_witness :
  ordinary_faults quiet_world /\
  calls_during (search_facilities "" "US" "" "" "" 150) quiet_world
  = [Request "http://127.0.0.1:5000/api/v1/facilities"
             [("country", VStr "US"); ("limit", VInt 100)] [] 15].
Proof.
  split; [exact quiet_world_ordinary|].
  exact (search_facilities_US_150 quiet_world quiet_world_ordinary).
Defined.

(** C9. [analyze_site(latitude=32.7767, longitude=-96.7970,
    radius_miles=10)] without an address makes a backend call whose
    query has [radius] 16090, which is 10 times 1609, has [lat] and
    [lng] set to the coordinates, and has no [address] key. *)
Theorem analyze_site_dallas w :
  ordinary_faults w ->
  exists r,
    calls_during (analyze_site 32.7767%float (-96.7970)%float "" 10) w = [r] /\
    req_url r = BACKEND_BASE w ++ "/api/v1/energy/site-analysis" /\
    dict_get "radius" (req_params r) = Some (VInt 16090) /\
    10 * 1609 = 16090 /\
    dict_get "lat" (req_params r) = Some (VFloat 32.7767%float) /\
    dict_get "lng" (req_params r) = Some (VFloat (-96.7970)%float) /\
    dict_get "address" (req_params r) = None /\
    map fst (req_params r) = ["lat"; "lng"; "radius"].
Proof.
  intros Hord.
  change (analyze_site 32.7767%float (-96.7970)%float "" 10)
    with (dispatch (Call_analyze_site 32.7767%float (-96.7970)%float "" 10)).
  rewrite dispatch_tool_body, tool_body_calls by assumption.
  eexists; split; [reflexivity|].
  repeat split.
Qed.

Lemma analyze_site_dallas_witness :
  exists r,
    calls_during (analyze_site 32.7767%float (-96.7970)%float "" 10)
                 quiet_world = [r] /\
    req_url r = BACKEND_BASE quiet_world ++ "/api/v1/energy/site-analysis" /\
    dict_get "radius" (req_params r) = Some (VInt 16090) /\
    10 * 1609 = 16090 /\
    dict_get "lat" (req_params r) = Some (VFloat 32.7767%float) /\
    dict_get "lng" (req_params r) = Some (VFloat (-96.7970)%float) /\
    dict_get "address" (req_params r) = None /\
    map fst (req_params r) = ["lat"; "lng"; "radius"].
Proof.
  exact (analyze_site_dallas quiet_world quiet_world_ordinary).
Defined.

Lemma dict_get_keep_truthy_none k d :
  (forall v, In (k, v) d -> truthy v = false) ->
  (forall k' v, In (k', v) d -> k' = k \/ String.eqb k k' = false) ->
  dict_get k (keep_truthy d) = None.
Proof.
  induction d as [|[k' v] d IH]; intros Hf Hk; cbn; [reflexivity|].
  destruct (truthy v) eqn:Hv; cbn.
  - destruct (Hk k' v (or_introl eq_refl)) as [->|Hne].
    + rewrite (Hf v (or_introl eq_refl)) in Hv. discriminate.
    + rewrite Hne. apply IH; intros; [apply Hf | eapply Hk]; right; eassumption.
  - apply IH; intros; [apply Hf | eapply Hk]; right; eassumption.
Qed.

(** C10. When [latitude] equals [0.0] the query [analyze_site] sends has
    no [lat] key, and when [longitude] equals [0.0] it has no [lng] key:
    a zero coordinate is dropped by the truth-value filter. *)
Theorem analyze_site_zero_coordinate_dropped
        (latitude longitude : float) (address : string) (radius_miles : Z) w :
  ordinary_faults w ->
  exists r,
    calls_during (analyze_site latitude longitude address radius_miles) w = [r] /\
    (PrimFloat.eqb latitude 0%float = true ->
     dict_get "lat" (req_params r) = None) /\
    (PrimFloat.eqb longitude 0%float = true ->
     dict_get "lng" (req_params r) = None).
Proof.
  intros Hord.
  change (analyze_site latitude longitude address radius_miles)
    with (dispatch (Call_analyze_site latitude longitude address radius_miles)).
  rewrite dispatch_tool_body, tool_body_calls by assumption.
  eexists; split; [reflexivity|].
  cbn [api_request req_params params_or_empty tool_query].
  split; intros H0; apply dict_get_keep_truthy_none.
  - intros v [E|[E|[E|[E|[]]]]]; inversion E; subst.
    cbn [truthy]. rewrite H0. reflexivity.
  - intros k' v [E|[E|[E|[E|[]]]]]; inversion E; subst; auto.
  - intros v [E|[E|[E|[E|[]]]]]; inversion E; subst.
    cbn [truthy]. rewrite H0. reflexivity.
  - intros k' v [E|[E|[E|[E|[]]]]]; inversion E; subst; auto.
Qed.

Lemma analyze_site_zero_coordinate_dropped_witness :
  exists r,
    calls_during (analyze_site 0%float (-0)%float "1 Main St" 25) quiet_world
    = [r] /\
    dict_get "lat" (req_params r) = None /\
    dict_get "lng" (req_params r) = None.
Proof.
  destruct (analyze_site_zero_coordinate_dropped
              0%float (-0)%float "1 Main St" 25 quiet_world
              quiet_world_ordinary) as (r & Hr & Hlat & Hlng).
  exists r. split; [exact Hr|].
  split; [apply Hlat | apply Hlng]; reflexivity.
Defined.

(** ** Clamping of [limit] *)

Lemma py_min_le_cap limit cap : py_min limit cap <= cap.
Proof. unfold py_min. destruct (Z.ltb_spec cap limit); lia. Qed.

Lemma py_min_in_range limit cap :
  1 <= limit -> 1 <= cap -> 1 <= py_min limit cap <= cap.
Proof. unfold py_min. destruct (Z.ltb_spec cap limit); lia. Qed.

Lemma py_min_above_cap limit cap : cap < limit -> py_min limit cap = cap.
Proof. unfold py_min. destruct (Z.ltb_spec cap limit); lia. Qed.

Lemma py_min_below_cap limit cap : limit <= cap -> py_min limit cap = limit.
Proof. unfold py_min. destruct (Z.ltb_spec cap limit); lia. Qed.

(** From 1 upwards the bound holds: the value sent lies in [1, cap] and
    is the cap for every [limit] above it. *)
Lemma limit_at_least_one_is_clamped (limit : Z) w :
  ordinary_faults w ->
  1 <= limit ->
  map (fun r => dict_get "limit" (req_params r))
      (calls_during (search_facilities "" "" "" "" "" limit) w)
  = [Some (VInt (py_min limit 100))] /\
  map (fun r => dict_get "limit" (req_params r))
      (calls_during (list_transactions 0 "" "" limit) w)
  = [Some (VInt (py_min limit 100))] /\
  map (fun r => dict_get "limit" (req_params r))
      (calls_during (get_news "" "" limit) w)
  = [Some (VInt (py_min limit 50))] /\
  1 <= py_min limit 100 <= 100 /\ 1 <= py_min limit 50 <= 50.
Proof.
  intros Hord Hge.
  change (search_facilities "" "" "" "" "" limit)
    with (dispatch (Call_search_facilities "" "" "" "" "" limit)).
  change (list_transactions 0 "" "" limit)
    with (dispatch (Call_list_transactions 0 "" "" limit)).
  change (get_news "" "" limit) with (dispatch (Call_get_news "" "" limit)).
  rewrite !dispatch_tool_body, !tool_body_calls by assumption.
  pose proof (py_min_in_range limit 100 Hge ltac:(lia)) as H100.
  pose proof (py_min_in_range limit 50 Hge ltac:(lia)) as H50.
  cbn.
  destruct (Z.eqb_spec (py_min limit 100) 0); [lia|].
  destruct (Z.eqb_spec (py_min limit 50) 0); [lia|].
  cbn. repeat split; lia.
Qed.

(** C6, on the code: [min(limit, cap)] bounds [limit] from above only.  A
    negative [limit] reaches the backend as it is, for each of the three
    tools, and a [limit] of zero is filtered out of the query. *)
Theorem limit_below_one_not_raised (limit : Z) w :
  ordinary_faults w ->
  limit < 1 ->
  let sent_limit (m : M json_text) :=
    map (fun r => dict_get "limit" (req_params r)) (calls_during m w) in
  let expected := if limit =? 0 then None else Some (VInt limit) in
  sent_limit (search_facilities "" "" "" "" "" limit) = [expected] /\
  sent_limit (list_transactions 0 "" "" limit) = [expected] /\
  sent_limit (get_news "" "" limit) = [expected].
Proof.
  intros Hord Hlt sent_limit expected. subst sent_limit expected.
  change (search_facilities "" "" "" "" "" limit)
    with (dispatch (Call_search_facilities "" "" "" "" "" limit)).
  change (list_transactions 0 "" "" limit)
    with (dispatch (Call_list_transactions 0 "" "" limit)).
  change (get_news "" "" limit) with (dispatch (Call_get_news "" "" limit)).
  rewrite !dispatch_tool_body, !tool_body_calls by assumption.
  cbn. rewrite !py_min_below_cap by lia.
  destruct (Z.eqb_spec limit 0); cbn; rewrite ?String.eqb_refl; auto.
Qed.

Lemma limit_below_one_not_raised_witness :
  map (fun r => dict_get "limit" (req_params r))
      (calls_during (search_facilities "" "" "" "" "" (-5)) quiet_world)
  = [Some (VInt (-5))].
Proof.
  exact (proj1 (limit_below_one_not_raised (-5) quiet_world
                  quiet_world_ordinary ltac:(lia))).
Defined.

(** ** What the client does with the query mapping *)

Lemma _api_get_calls path params w :
  calls_during (_api_get path params) w = [api_request path params w].
Proof.
  unfold calls_during. rewrite _api_get_sent. apply skipn_length_app.
Qed.

(** C7 as stated fails: handed a mapping with an empty string and a
    zero, [_api_get] passes both keys on to the backend. *)
Lemma api_get_does_not_filter :
  exists path params w r k v,
    In r (calls_during (_api_get path params) w) /\
    In (k, v) (wire_query r) /\
    truthy v = false.
Proof.
  exists "/api/v1/facilities",
    (Some [("country", VStr ""); ("limit", VInt 0)]),
    quiet_world,
    (Request "http://127.0.0.1:5000/api/v1/facilities"
             [("country", VStr ""); ("limit", VInt 0)] [] 15),
    "limit", (VInt 0).
  split; [left; reflexivity|].
  split; [right; left; reflexivity|reflexivity].
Qed.

Lemma keep_truthy_all_truthy d k v :
  In (k, v) (keep_truthy d) -> truthy v = true.
Proof.
  unfold keep_truthy. rewrite filter_In. now intros [_ H].
Qed.

(** C7, amended.  [_api_get] makes one call and hands the mapping it was
    given to the HTTP library unchanged, an absent mapping as the empty
    one; on the wire only the keys whose value is [None] are missing.
    The empty and zero values are removed earlier, by the handlers: no
    call made by a tool carries a key whose value is empty, absent or
    zero. *)
Theorem query_filtering_is_done_by_handlers :
  (forall path params w,
      exists r,
        calls_during (_api_get path params) w = [r] /\
        req_params r = params_or_empty params /\
        wire_query r
        = filter (fun kv => match snd kv with VNone => false | _ => true end)
                 (params_or_empty params)) /\
  (forall c w r k v,
      In r (calls_during (dispatch c) w) ->
      In (k, v) (req_params r) -> truthy v = true).
Proof.
  split.
  - intros path params w. exists (api_request path params w).
    split; [apply _api_get_calls|]. split; reflexivity.
  - intros c w r k v Hr Hkv.
    rewrite dispatch_tool_body in Hr. unfold calls_during in Hr.
    destruct (fst (_track_mcp_request (tool_name c) (tool_recorded c) "mcp" w))
      as [e|[]] eqn:Hret.
    + (* the audit sink let an exception through: nothing was sent *)
      pose proof (_track_mcp_request_frame (tool_name c) (tool_recorded c)
                                           "mcp" w) as (_ & _ & _ & Hs & _).
      unfold tool_body, bind in Hr.
      destruct (_track_mcp_request (tool_name c) (tool_recorded c) "mcp" w)
        as [[e'|[]] w1]; cbn in *; [|discriminate].
      rewrite Hs, skipn_all in Hr.
      destruct Hr.
    + rewrite tool_body_sent, skipn_length_app in Hr by assumption.
      destruct Hr as [<-|[]]. cbn [api_request req_params] in Hkv.
      destruct c; cbn [tool_query params_or_empty] in Hkv;
        solve [destruct Hkv | eapply keep_truthy_all_truthy; eassumption].
Qed.

(** ** Backend failures become data *)

Lemma append_nonempty a c b d :
  String.eqb (a ++ (String c b ++ d)) "" = false.
Proof. destruct a; reflexivity. Qed.

Lemma raise_for_status_error r :
  400 <= status_code r < 600 ->
  raise_for_status r = inl (Exn requests_HTTPError (http_error_msg r)).
Proof.
  intros H. unfold raise_for_status, http_error_msg, truthy.
  destruct (Z.leb_spec 400 (status_code r)); [|lia].
  destruct (Z.ltb_spec (status_code r) 500); cbn [andb].
  - now rewrite append_nonempty.
  - destruct (Z.leb_spec 500 (status_code r)); [|lia].
    destruct (Z.ltb_spec (status_code r) 600); [|lia].
    cbn [andb]. now rewrite append_nonempty.
Qed.

Lemma raise_for_status_pass r :
  ~ 400 <= status_code r < 600 -> raise_for_status r = inr tt.
Proof.
  intros H. unfold raise_for_status, http_error_msg, truthy.
  destruct (Z.leb_spec 400 (status_code r));
    destruct (Z.ltb_spec (status_code r) 500);
    destruct (Z.leb_spec 500 (status_code r));
    destruct (Z.ltb_spec (status_code r) 600); cbn; try reflexivity; lia.
Qed.

(** What [_api_get] hands back, by what the backend did. *)
Lemma _api_get_result path params w :
  fst (_api_get path params w)
  = match backend w (sent w) (api_request path params w) with
    | HttpRaises e =>
        if is_RequestException e then inr (error_payload (exn_str e))
        else inl e
    | HttpResponds r =>
        match raise_for_status r with
        | inl e => inr (error_payload (exn_str e))
        | inr _ =>
            match body r with
            | inr j => inr j
            | inl e =>
                if is_RequestException e then inr (error_payload (exn_str e))
                else inl e
            end
        end
    end.
Proof.
  unfold _api_get, http_requests_get, api_request, current_key, BACKEND_BASE,
    environ_get, Response_json.
  unfold_m. cbn.
  destruct (_current_api_key w) as [k|]; cbn;
    [destruct (negb (String.eqb k "")); cbn|];
    match goal with
    | |- context [backend w (sent w) ?r] => destruct (backend w (sent w) r); cbn
    end;
    try (destruct (is_RequestException e); reflexivity);
    unfold raise_for_status;
    destruct (truthy (VStr (http_error_msg r))); cbn; try reflexivity;
    destruct (body r) as [e|j]; cbn; try reflexivity;
    destruct (is_RequestException e); reflexivity.
Qed.

(** C3 as stated fails: a final response whose status is neither 2xx nor
    an error status, here [300 Multiple Choices] with a JSON body, is
    handed back as if it were a success. *)
Lemma api_get_passes_non_2xx :
  exists path params w r v,
    backend w (sent w) (api_request path params w) = HttpResponds r /\
    ~ 200 <= status_code r < 300 /\
    fst (_api_get path params w) = inr v /\
    forall detail, v <> error_payload detail.
Proof.
  exists "/api/v1/news", None,
    (World [] None
           (fun _ _ => HttpResponds
                         (MkResponse 300 "Multiple Choices"
                                     "http://127.0.0.1:5000/api/v1/news"
                                     (inr (JList [JStr "/api/v2/news"]))))
           [] (fun _ => None) None "2025-01-01T00:00:00+00:00" []),
    (MkResponse 300 "Multiple Choices" "http://127.0.0.1:5000/api/v1/news"
                (inr (JList [JStr "/api/v2/news"]))),
    (JList [JStr "/api/v2/news"]).
  split; [reflexivity|]. split; [cbn; lia|].
  split; [reflexivity|]. intros detail H. discriminate H.
Qed.

(** C3, amended.  Whenever the HTTP call raises one of the library's
    exceptions (timeout, connection failure and the like), or the
    response status lies in 400..599, or [resp.json()] rejects the body
    as not being JSON (the library's [JSONDecodeError]), [_api_get]
    returns [{"error": "Backend request failed: <details>"}] and raises
    nothing; a response with any other status whose body [resp.json()]
    decodes is returned as that decoded body, unchanged. *)
Theorem api_get_failure_is_data path params w :
  (forall e,
      backend w (sent w) (api_request path params w) = HttpRaises e ->
      is_RequestException e = true ->
      fst (_api_get path params w) = inr (error_payload (exn_str e))) /\
  (forall r,
      backend w (sent w) (api_request path params w) = HttpResponds r ->
      400 <= status_code r < 600 ->
      fst (_api_get path params w) = inr (error_payload (http_error_msg r))) /\
  (forall r e,
      backend w (sent w) (api_request path params w) = HttpResponds r ->
      ~ 400 <= status_code r < 600 ->
      body r = inl e -> exn_cls e = requests_JSONDecodeError ->
      fst (_api_get path params w) = inr (error_payload (exn_str e))) /\
  (forall r v,
      backend w (sent w) (api_request path params w) = HttpResponds r ->
      ~ 400 <= status_code r < 600 ->
      body r = inr v ->
      fst (_api_get path params w) = inr v).
Proof.
  rewrite _api_get_result. repeat split.
  - intros e -> He. now rewrite He.
  - intros r -> Hst. now rewrite raise_for_status_error.
  - intros r e -> Hst Hb Hcls. rewrite raise_for_status_pass, Hb by assumption.
    unfold is_RequestException. now rewrite Hcls.
  - intros r v -> Hst Hb. now rewrite raise_for_status_pass, Hb.
Qed.

Lemma api_get_failure_is_data_witness :
  exists j,
    fst (_api_get "/api/v1/news" None timeout_world) = inr j /\
    j = JDict [("error", JStr "Backend request failed: Read timed out.")].
Proof.
  exists (JDict [("error", JStr "Backend request failed: Read timed out.")]).
  split; [|reflexivity].
  exact (proj1 (api_get_failure_is_data "/api/v1/news" None timeout_world)
               (Exn requests_Timeout "Read timed out.") eq_refl eq_refl).
Defined.

(** ** Audit failures stay out of sight *)

Lemma _api_get_result_ext path params w w' :
  same_for_backend w w' ->
  fst (_api_get path params w') = fst (_api_get path params w).
Proof.
  intros (He & Hk & Hb & Hs).
  rewrite !_api_get_result, (api_request_ext _ _ _ _ He Hk), Hb, Hs.
  reflexivity.
Qed.

Lemma tool_body_result tool_name recorded path query w :
  fst (_track_mcp_request tool_name recorded "mcp" w) = inr tt ->
  fst (tool_body tool_name recorded path query w)
  = match fst (_api_get path query w) with
    | inl e => inl e
    | inr j => inr (json_dumps j 2)
    end.
Proof.
  intros Hret.
  pose proof (_track_mcp_request_frame tool_name recorded "mcp" w)
    as (He & Hk & Hb & Hs & _).
  rewrite <- (_api_get_result_ext path query w
                (snd (_track_mcp_request tool_name recorded "mcp" w)))
    by (repeat split; assumption).
  unfold tool_body, bind.
  destruct (_track_mcp_request tool_name recorded "mcp" w) as [[e|[]] w1];
    cbn [fst snd] in *; [discriminate|].
  destruct (_api_get path query w1) as [[e|j] w2]; reflexivity.
Qed.

(** C4. Whatever ordinary failure the storage produces inside
    [_track_mcp_request], at any of its steps, the sink returns normally
    to the handler, and the tool returns exactly the JSON text it
    returns when no audit step fails. *)
Theorem audit_failure_invisible (c : tool_call) (w : world)
        (faults : audit_op -> option exn) :
  (forall op e, faults op = Some e -> is_Exception e = true) ->
  (forall tool_name params source,
      fst (_track_mcp_request tool_name params source
                              (with_audit_fault faults w)) = inr tt) /\
  fst (dispatch c (with_audit_fault faults w))
  = fst (dispatch c (with_audit_fault (fun _ => None) w)).
Proof.
  intros Hord.
  assert (H1 : ordinary_faults (with_audit_fault faults w)) by exact Hord.
  assert (H2 : ordinary_faults (with_audit_fault (fun _ => None) w))
    by (intros op e H; discriminate H).
  split.
  - intros. apply _track_mcp_request_returns. exact H1.
  - rewrite dispatch_tool_body.
    rewrite !tool_body_result by (apply _track_mcp_request_returns; assumption).
    rewrite (_api_get_result_ext _ _ (with_audit_fault (fun _ => None) w)
                                 (with_audit_fault faults w))
      by (repeat split).
    reflexivity.
Qed.

Lemma audit_failure_invisible_witness :
  fst (_track_mcp_request "get_news" [("limit", VInt 10)] "mcp"
         (with_audit_fault storage_down quiet_world)) = inr tt /\
  fst (dispatch (Call_get_news "" "" 10)
         (with_audit_fault storage_down quiet_world))
  = inr (json_dumps (JDict []) 2).
Proof.
  assert (H : forall op e, storage_down op = Some e -> is_Exception e = true).
  { intros op e He. inversion He. reflexivity. }
  destruct (audit_failure_invisible (Call_get_news "" "" 10) quiet_world
              storage_down H) as (Hret & Hsame).
  split; [apply Hret|]. rewrite Hsame. reflexivity.
Defined.

(** ** The middleware restores the context *)

Lemma http_scope sc : scope_type sc = "http" -> String.eqb (scope_type sc) "http" = true.
Proof. intros ->. reflexivity. Qed.

Lemma middleware_restores_context app sc w :
  scope_type sc = "http" ->
  _current_api_key (snd (APIKeyMiddleware_call app sc w)) = _current_api_key w.
Proof.
  intros Hhttp. unfold APIKeyMiddleware_call.
  rewrite (http_scope _ Hhttp). unfold_m.
  destruct (request_api_key sc) as [e|k]; cbn; [reflexivity|].
  destruct (app sc (with_api_key (Some k) w)) as [r w']; reflexivity.
Qed.

Lemma middleware_outcome app sc w k :
  scope_type sc = "http" -> request_api_key sc = inr k ->
  fst (APIKeyMiddleware_call app sc w) = fst (app sc (with_api_key (Some k) w)).
Proof.
  intros Hhttp Hk. unfold APIKeyMiddleware_call.
  rewrite (http_scope _ Hhttp). unfold_m. rewrite Hk. cbn.
  destruct (app sc (with_api_key (Some k) w)) as [r w']; reflexivity.
Qed.

Lemma middleware_rejects app sc w e :
  scope_type sc = "http" -> request_api_key sc = inl e ->
  APIKeyMiddleware_call app sc w = (inl e, w).
Proof.
  intros Hhttp He. unfold APIKeyMiddleware_call.
  rewrite (http_scope _ Hhttp). unfold_m. rewrite He. reflexivity.
Qed.

(** No leak from one request to the next on the same worker. *)
Lemma serve_context_absent reqs : forall w,
  _current_api_key w = None ->
  Forall (fun r => scope_type (fst r) = "http") reqs ->
  Forall (fun w' => _current_api_key w' = None) (serve reqs w).
Proof.
  induction reqs as [|[sc app] reqs IH]; intros w Hw Hall; cbn.
  - constructor; [exact Hw|constructor].
  - inversion Hall; subst. constructor; [exact Hw|].
    apply IH; [|assumption].
    rewrite middleware_restores_context; assumption.
Qed.

(** C2. For an HTTP request that finds the credential context unset,
    the context is unset again when the middleware is left, whatever
    the downstream application did: its outcome, a normal return or an
    exception, is handed on unchanged after the reset, and a request
    whose key cannot be read is left before anything is set.  So on a
    worker that handles HTTP requests one after the other the context is
    unset before and after each of them. *)
Theorem context_absent_around_request (app : scope -> M unit) sc w :
  scope_type sc = "http" ->
  _current_api_key w = None ->
  _current_api_key (snd (APIKeyMiddleware_call app sc w)) = None /\
  (forall k, request_api_key sc = inr k ->
             fst (APIKeyMiddleware_call app sc w)
             = fst (app sc (with_api_key (Some k) w))) /\
  (forall e, request_api_key sc = inl e ->
             APIKeyMiddleware_call app sc w = (inl e, w)) /\
  (forall later,
      Forall (fun r => scope_type (fst r) = "http") later ->
      Forall (fun w' => _current_api_key w' = None)
             (serve ((sc, app) :: later) w)).
Proof.
  intros Hhttp Hnone. split; [|split; [|split]].
  - rewrite middleware_restores_context by assumption. exact Hnone.
  - intros k Hk. apply middleware_outcome; assumption.
  - intros e He. apply middleware_rejects; assumption.
  - intros later Hlater. apply serve_context_absent; [exact Hnone|].
    constructor; assumption.
Qed.

(** The failing handler behind a request that carries a key: the
    exception reaches the server and the context is unset again. *)
Lemma context_absent_around_request_witness :
  _current_api_key
    (snd (APIKeyMiddleware_call failing_app
            (Scope "http" (Some [("x-api-key", "abc123")]) None)
            quiet_world)) = None /\
  fst (APIKeyMiddleware_call failing_app
         (Scope "http" (Some [("x-api-key", "abc123")]) None)
         quiet_world) = inl (Exn RuntimeError "handler failed").
Proof.
  destruct (context_absent_around_request
              failing_app (Scope "http" (Some [("x-api-key", "abc123")]) None)
              quiet_world eq_refl eq_refl) as (Hctx & Hout & _).
  split; [exact Hctx|].
  rewrite (Hout "abc123" eq_refl). reflexivity.
Defined.

(** ** Which credential is forwarded *)

Lemma str_split_no_sep sep s : has_char sep s = false -> str_split sep s = [s].
Proof.
  induction s as [|c r IH]; cbn; [reflexivity|].
  intros H. apply orb_false_iff in H as [Hc Hr].
  rewrite Hc, (IH Hr). reflexivity.
Qed.

Lemma str_split_cons sep x rest :
  has_char sep x = false ->
  str_split sep (x ++ String sep rest) = x :: str_split sep rest.
Proof.
  induction x as [|c r IH]; cbn.
  - intros _. now rewrite Ascii.eqb_refl.
  - intros H. apply orb_false_iff in H as [Hc Hr].
    rewrite Hc, (IH Hr). reflexivity.
Qed.

(** Splitting undoes joining when no piece holds the separator. *)
Lemma str_split_join sep pieces :
  pieces <> [] ->
  Forall (fun x => has_char sep x = false) pieces ->
  str_split sep (str_join (String sep "") pieces) = pieces.
Proof.
  induction pieces as [|x rest IH]; intros Hne Hall; [congruence|].
  inversion Hall as [|? ? Hx Hrest]; subst.
  destruct rest as [|y rest'].
  - cbn. now apply str_split_no_sep.
  - change (str_join (String sep "") (x :: y :: rest'))
      with (x ++ String sep (str_join (String sep "") (y :: rest'))).
    rewrite str_split_cons by assumption.
    rewrite IH by (assumption || congruence). reflexivity.
Qed.

Lemma api_key_param_found before v after :
  Forall (fun f => startswith f "api_key=" = false) before ->
  api_key_param (before ++ ("api_key=" ++ v) :: after) = inr (Some v).
Proof.
  induction 1 as [|f before Hf _ IH]; cbn [app api_key_param].
  - cbn. destruct v; reflexivity.
  - rewrite Hf. exact IH.
Qed.

Lemma api_key_param_absent pieces :
  Forall (fun f => startswith f "api_key=" = false) pieces ->
  api_key_param pieces = inr None.
Proof.
  induction 1 as [|f pieces Hf _ IH]; cbn [api_key_param];
    [reflexivity|]. rewrite Hf. exact IH.
Qed.

Lemma request_api_key_spec sc cred :
  forwarded_credential
    (dict_get "x-api-key" (dict_of_pairs (scope_get_headers sc)))
    (scope_get_query_string sc) cred ->
  request_api_key sc = inr cred.
Proof.
  unfold request_api_key, decode_utf8. cbv zeta.
  generalize (dict_get "x-api-key" (dict_of_pairs (scope_get_headers sc))).
  generalize (scope_get_query_string sc).
  intros q header
         [h Hh Hne Hv | before v after Hh Hv Hq Hamp Hbefore
          | fields Hh Hv Hq Hamp Hnone].
  - rewrite Hh, Hv. cbn [truthy negb].
    apply String.eqb_neq in Hne. rewrite Hne. reflexivity.
  - assert (Hdec : match header with Some v0 => v0 | None => "" end = "")
      by (destruct Hh as [-> | ->]; reflexivity).
    rewrite Hdec. cbn [utf8_valid truthy negb String.eqb]. rewrite Hv, Hq.
    rewrite str_split_join by (assumption || (destruct before; discriminate)).
    rewrite api_key_param_found by assumption. reflexivity.
  - assert (Hdec : match header with Some v0 => v0 | None => "" end = "")
      by (destruct Hh as [-> | ->]; reflexivity).
    rewrite Hdec. cbn [utf8_valid truthy negb String.eqb]. rewrite Hv, Hq.
    destruct fields as [|f fields]; [reflexivity|].
    rewrite str_split_join by (assumption || discriminate).
    rewrite api_key_param_absent by assumption. reflexivity.
Qed.

Lemma forwarded_headers_cases k :
  forwarded_headers k = if String.eqb k "" then [] else [("X-API-Key", k)].
Proof. unfold forwarded_headers, truthy. destruct (String.eqb k ""); reflexivity. Qed.

Lemma dispatch_sent c w :
  ordinary_faults w ->
  sent (snd (dispatch c w))
  = (sent w ++ [api_request (tool_path c) (tool_query c) w])%list.
Proof.
  intros Hord. rewrite dispatch_tool_body.
  apply tool_body_sent, _track_mcp_request_returns, Hord.
Qed.

Lemma middleware_serving_calls sc c w k :
  scope_type sc = "http" -> request_api_key sc = inr k ->
  ordinary_faults w ->
  calls_during (APIKeyMiddleware_call (serving c) sc) w
  = [Request (BACKEND_BASE w ++ tool_path c) (params_or_empty (tool_query c))
             (forwarded_headers k) 15].
Proof.
  intros Hhttp Hk Hord.
  pose proof (dispatch_sent c (with_api_key (Some k) w) Hord) as Hs.
  unfold calls_during, APIKeyMiddleware_call, serving.
  rewrite (http_scope _ Hhttp). unfold_m. rewrite Hk. cbn -[dispatch].
  destruct (dispatch c (with_api_key (Some k) w)) as [[e|t] w']; cbn in *;
    rewrite Hs; apply skipn_length_app.
Qed.

(** C5. For an HTTP request the backend call carries the credential of
    the request: the value of the [x-api-key] header when that header is
    present and not empty, whatever the query string says; otherwise the
    value of the [api_key] field of the query string when there is one;
    and when that credential is empty the call has no [X-API-Key]
    header at all. *)
Theorem credential_forwarding sc (c : tool_call) w cred :
  scope_type sc = "http" ->
  ordinary_faults w ->
  forwarded_credential
    (dict_get "x-api-key" (dict_of_pairs (scope_get_headers sc)))
    (scope_get_query_string sc) cred ->
  exists r,
    calls_during (APIKeyMiddleware_call (serving c) sc) w = [r] /\
    req_headers r = (if String.eqb cred "" then [] else [("X-API-Key", cred)]) /\
    (cred = "" -> dict_get "X-API-Key" (req_headers r) = None).
Proof.
  intros Hhttp Hord Hcred.
  apply request_api_key_spec in Hcred.
  rewrite (middleware_serving_calls sc c w cred) by assumption.
  eexists; split; [reflexivity|]. cbn [req_headers].
  split; [apply forwarded_headers_cases|].
  intros ->. reflexivity.
Qed.

Lemma credential_forwarding_witness :
  exists r,
    calls_during
      (APIKeyMiddleware_call (serving (Call_get_news "AI" "" 5))
         (Scope "http" (Some [("x-api-key", "abc123")]) (Some "api_key=zzz")))
      quiet_world = [r] /\
    req_headers r = [("X-API-Key", "abc123")].
Proof.
  destruct (credential_forwarding
              (Scope "http" (Some [("x-api-key", "abc123")])
                     (Some "api_key=zzz"))
              (Call_get_news "AI" "" 5) quiet_world "abc123"
              eq_refl quiet_world_ordinary
              (credential_from_header _ _ "abc123" eq_refl
                 ltac:(discriminate) eq_refl))
    as (r & Hr & Hh & _).
  exists r. split; [exact Hr | exact Hh].
Defined.

(** ** Isolation between concurrent requests *)

Lemma tool_body_context tool_name recorded path query w :
  _current_api_key (snd (tool_body tool_name recorded path query w))
  = _current_api_key w.
Proof.
  pose proof (_track_mcp_request_frame tool_name recorded "mcp" w)
    as (_ & Hk & _).
  unfold tool_body, bind.
  destruct (_track_mcp_request tool_name recorded "mcp" w) as [[e|[]] w1];
    cbn [fst snd] in *; [exact Hk|].
  pose proof (_api_get_frame path query w1) as (_ & Hk' & _).
  destruct (_api_get path query w1) as [[e|j] w2]; cbn [fst snd ret] in *;
    congruence.
Qed.

Lemma tool_body_calls_any tool_name recorded path query w :
  calls_during (tool_body tool_name recorded path query) w = []
  \/ calls_during (tool_body tool_name recorded path query) w
     = [api_request path query w].
Proof.
  destruct (fst (_track_mcp_request tool_name recorded "mcp" w))
    as [e|[]] eqn:Hret.
  - left. unfold calls_during.
    pose proof (_track_mcp_request_frame tool_name recorded "mcp" w)
      as (_ & _ & _ & Hs & _).
    unfold tool_body, bind.
    destruct (_track_mcp_request tool_name recorded "mcp" w) as [[e'|[]] w1];
      cbn [fst snd] in *; [|discriminate].
    rewrite Hs. apply skipn_all.
  - right. unfold calls_during.
    rewrite tool_body_sent by assumption. apply skipn_length_app.
Qed.

(** Every call a handler makes carries the key bound in the context the
    handler runs in, and the handler leaves that binding alone. *)
Lemma dispatch_calls_headers c w r :
  In r (calls_during (dispatch c) w) ->
  req_headers r = forwarded_headers (current_key w).
Proof.
  rewrite dispatch_tool_body.
  destruct (tool_body_calls_any (tool_name c) (tool_recorded c) (tool_path c)
                                (tool_query c) w) as [-> | ->].
  - intros [].
  - intros [<-|[]]. reflexivity.
Qed.

Lemma dispatch_context c w :
  _current_api_key (snd (dispatch c w)) = _current_api_key w.
Proof. rewrite dispatch_tool_body. apply tool_body_context. Qed.

Lemma dispatch_sent_extends c w :
  exists new, sent (snd (dispatch c w)) = (sent w ++ new)%list.
Proof.
  rewrite dispatch_tool_body.
  destruct (fst (_track_mcp_request (tool_name c) (tool_recorded c) "mcp" w))
    as [e|[]] eqn:Hret.
  - exists []. rewrite app_nil_r.
    pose proof (_track_mcp_request_frame (tool_name c) (tool_recorded c)
                                         "mcp" w) as (_ & _ & _ & Hs & _).
    unfold tool_body, bind.
    destruct (_track_mcp_request (tool_name c) (tool_recorded c) "mcp" w)
      as [[e'|[]] w1]; cbn [fst snd] in *; [exact Hs|discriminate].
  - eexists. apply tool_body_sent. assumption.
Qed.

Lemma task_step_scope t w : t_scope (fst (task_step t w)) = t_scope t.
Proof.
  unfold task_step.
  destruct (next_segment t (with_api_key (t_context t) w)); reflexivity.
Qed.

Lemma task_step_app t w : t_app (fst (task_step t w)) = t_app t.
Proof.
  unfold task_step.
  destruct (next_segment t (with_api_key (t_context t) w)); reflexivity.
Qed.

Lemma run_app_step_calls st w r :
  In r (calls_during (run_app_step st) w) ->
  req_headers r = forwarded_headers (current_key w).
Proof.
  destruct st as [c| |e]; unfold calls_during; cbn.
  - intros H. apply (dispatch_calls_headers c w). unfold calls_during.
    unfold bind, ret in H.
    destruct (dispatch c w) as [[e|t] w']; exact H.
  - rewrite skipn_all. intros [].
  - rewrite skipn_all. intros [].
Qed.

Lemma run_app_step_context st w :
  _current_api_key (snd (run_app_step st w)) = _current_api_key w.
Proof.
  destruct st as [c| |e]; cbn; try reflexivity.
  pose proof (dispatch_context c w) as H. unfold bind, ret.
  destruct (dispatch c w) as [[e|t] w']; exact H.
Qed.

Lemma run_app_step_sent st w :
  exists new, sent (snd (run_app_step st w)) = (sent w ++ new)%list.
Proof.
  destruct st as [c| |e]; cbn.
  - destruct (dispatch_sent_extends c w) as [new H]. exists new.
    unfold bind, ret. destruct (dispatch c w) as [[e|t] w']; exact H.
  - exists []. now rewrite app_nil_r.
  - exists []. now rewrite app_nil_r.
Qed.

Lemma leave_sent token w : sent (snd (leave token w)) = sent w.
Proof. destruct token; reflexivity. Qed.

Lemma leave_returns token w : fst (leave token w) = inr tt.
Proof. destruct token; reflexivity. Qed.

Lemma Forall_app_nil {A} (P : A -> Prop) l :
  Forall P l -> Forall P (l ++ []).
Proof. now rewrite app_nil_r. Qed.

Lemma task_step_key t w : task_key (fst (task_step t w)) = task_key t.
Proof. unfold task_key. now rewrite task_step_scope. Qed.

Lemma task_step_inv t w : task_inv t -> task_inv (fst (task_step t w)).
Proof.
  unfold task_inv. rewrite task_step_key.
  remember (task_key t) as key eqn:Hkey.
  destruct t as [sc app ctx st calls].
  unfold task_step, task_key in *.
  cbn [t_scope t_app t_context t_state t_calls] in *.
  intros [Hcalls Hst].
  set (w0 := with_api_key ctx w).
  assert (Hw0 : current_key w0 = context_key ctx) by reflexivity.
  destruct st as [|token todo|res]; unfold next_segment;
    cbn [t_scope t_app t_context t_state t_calls].
  - (* entering the middleware *)
    destruct (String.eqb (scope_type sc) "http") eqn:Hhttp.
    + destruct (request_api_key sc) as [e|k] eqn:Hk; cbn;
        rewrite skipn_all; (split; [apply Forall_app_nil, Hcalls|]);
        [exact I | now subst key].
    + cbn. rewrite skipn_all. split; [apply Forall_app_nil, Hcalls|].
      now rewrite Hst, Hkey.
  - destruct todo as [|st todo].
    + (* leaving the middleware *)
      pose proof (leave_sent token w0) as Hs.
      destruct (leave token w0) as [[e|[]] w1];
        cbn [fst snd t_scope t_app t_context t_state t_calls] in *;
        rewrite Hs, skipn_all; (split; [apply Forall_app_nil, Hcalls|exact I]).
    + (* one step of the application *)
      pose proof (run_app_step_calls st w0) as Hnew.
      pose proof (run_app_step_context st w0) as Hctx.
      unfold calls_during in Hnew.
      destruct (run_app_step st w0) as [[e|[]] w1]; cbn [fst snd] in *.
      * pose proof (leave_sent token w1) as Hs.
        destruct (leave token w1) as [[e'|[]] w2];
          cbn [fst snd t_scope t_app t_context t_state t_calls] in *;
          rewrite Hs; (split; [|exact I]);
          apply Forall_app; (split; [exact Hcalls|]);
          apply Forall_forall; intros r Hr;
          rewrite (Hnew r Hr), Hw0, Hst; reflexivity.
      * cbn [fst snd t_scope t_app t_context t_state t_calls].
        split.
        -- apply Forall_app; split; [exact Hcalls|].
           apply Forall_forall; intros r Hr.
           rewrite (Hnew r Hr), Hw0, Hst. reflexivity.
        -- rewrite Hctx. exact Hst.
  - cbn [fst snd t_scope t_app t_context t_state t_calls].
    rewrite skipn_all. split; [apply Forall_app_nil, Hcalls|exact I].
Qed.

Lemma sys_step_task s i j :
  sys_tasks (sys_step s i) j
  = if Nat.eqb j i then fst (task_step (sys_tasks s i) (sys_world s))
    else sys_tasks s j.
Proof.
  unfold sys_step.
  destruct (task_step (sys_tasks s i) (sys_world s)) as [t w].
  reflexivity.
Qed.

Lemma sys_step_inv s i :
  (forall j, task_inv (sys_tasks s j)) ->
  forall j, task_inv (sys_tasks (sys_step s i) j).
Proof.
  intros H j. rewrite sys_step_task.
  destruct (Nat.eqb j i); [apply task_step_inv|]; apply H.
Qed.

Lemma sys_step_scope s i j :
  t_scope (sys_tasks (sys_step s i) j) = t_scope (sys_tasks s j).
Proof.
  rewrite sys_step_task.
  destruct (Nat.eqb_spec j i) as [->|]; [apply task_step_scope|reflexivity].
Qed.

Lemma run_schedule_inv schedule : forall s,
  (forall j, task_inv (sys_tasks s j)) ->
  forall j, task_inv (sys_tasks (run_schedule schedule s) j).
Proof.
  induction schedule as [|i schedule IH]; intros s H; [exact H|].
  apply IH, sys_step_inv, H.
Qed.

Lemma run_schedule_scope schedule : forall s j,
  t_scope (sys_tasks (run_schedule schedule s) j) = t_scope (sys_tasks s j).
Proof.
  induction schedule as [|i schedule IH]; intros s j; [reflexivity|].
  cbn. rewrite IH. apply sys_step_scope.
Qed.

Lemma initial_inv s : initial s -> forall j, task_inv (sys_tasks s j).
Proof.
  intros [Hw Hnew] j. rewrite Hnew. unfold new_task, task_inv. cbn.
  split; [constructor|exact Hw].
Qed.

(** The calls of a task carry the key of the task's own request,
    whatever the schedule. *)
Lemma task_calls_carry_own_key s schedule i r :
  initial s ->
  In r (t_calls (sys_tasks (run_schedule schedule s) i)) ->
  req_headers r = forwarded_headers (task_key (sys_tasks s i)).
Proof.
  intros Hinit Hr.
  destruct (run_schedule_inv schedule s (initial_inv s Hinit) i) as [Hcalls _].
  rewrite Forall_forall in Hcalls. rewrite (Hcalls r Hr).
  unfold task_key. now rewrite run_schedule_scope.
Qed.

(** C1. Two requests with distinct credentials are handled as two tasks,
    under any schedule of their segments.  Every backend call made while
    the first one runs carries the first request's credential, or no
    [X-API-Key] header when that credential is empty, and never the
    credential of the second. *)
Theorem credential_isolation s schedule (i j : nat) (ki kj : string) r :
  initial s ->
  i <> j ->
  scope_type (t_scope (sys_tasks s i)) = "http" ->
  scope_type (t_scope (sys_tasks s j)) = "http" ->
  request_api_key (t_scope (sys_tasks s i)) = inr ki ->
  request_api_key (t_scope (sys_tasks s j)) = inr kj ->
  ki <> kj ->
  In r (t_calls (sys_tasks (run_schedule schedule s) i)) ->
  req_headers r = (if String.eqb ki "" then [] else [("X-API-Key", ki)]) /\
  dict_get "X-API-Key" (req_headers r) <> Some kj.
Proof.
  intros Hinit _ Hi _ Hki _ Hne Hr.
  rewrite (task_calls_carry_own_key s schedule i r Hinit Hr).
  unfold task_key. rewrite (http_scope _ Hi), Hki, forwarded_headers_cases.
  split; [reflexivity|].
  destruct (String.eqb ki ""); cbn; congruence.
Qed.

Lemma two_requests_initial : initial two_requests.
Proof.
  split; [reflexivity|]. intros [|[|i]]; reflexivity.
Qed.

Lemma credential_isolation_witness :
  In (Request "http://127.0.0.1:5000/api/v1/news" [("limit", VInt 5)]
              [("X-API-Key", "alice-key")] 15)
     (t_calls (sys_tasks (run_schedule interleaved two_requests) 0)) /\
  dict_get "X-API-Key" [("X-API-Key", "alice-key")] <> Some "bob-key".
Proof.
  assert (Hin : In (Request "http://127.0.0.1:5000/api/v1/news"
                            [("limit", VInt 5)]
                            [("X-API-Key", "alice-key")] 15)
                   (t_calls (sys_tasks (run_schedule interleaved two_requests) 0)))
    by (vm_compute; left; reflexivity).
  split; [exact Hin|].
  exact (proj2 (credential_isolation
                  two_requests interleaved 0 1 "alice-key" "bob-key" _
                  two_requests_initial ltac:(discriminate)
                  eq_refl eq_refl eq_refl eq_refl ltac:(discriminate) Hin)).
Defined.

(** The whole trace of that run: whose key each call carried, in the
    order the backend saw them. *)
Example interleaved_trace :
  map req_headers (sent (sys_world (run_schedule interleaved two_requests)))
  = [[("X-API-Key", "bob-key")]; [("X-API-Key", "alice-key")];
     [("X-API-Key", "alice-key")]]
  /\ _current_api_key (sys_world (run_schedule interleaved two_requests)) = None
  /\ t_state (sys_tasks (run_schedule interleaved two_requests) 0)
     = Finished (inr tt)
  /\ t_state (sys_tasks (run_schedule interleaved two_requests) 1)
     = Finished (inr tt).
Proof. vm_compute. repeat split. Qed.

(** ** A task run alone is the middleware *)

Lemma with_api_key_twice c c' w :
  with_api_key c (with_api_key c' w) = with_api_key c w.
Proof. reflexivity. Qed.

Lemma with_api_key_self w c :
  _current_api_key w = c -> with_api_key c w = w.
Proof. intros <-. destruct w; reflexivity. Qed.

Lemma finished_stays n : forall sc app c r calls w,
  t_state (fst (run_alone n (Task sc app c (Finished r) calls) w)) = Finished r /\
  t_context (fst (run_alone n (Task sc app c (Finished r) calls) w)) = c /\
  snd (run_alone n (Task sc app c (Finished r) calls) w) = w.
Proof.
  induction n as [|n IH]; intros; cbn [run_alone]; [repeat split|].
  unfold task_step, next_segment. cbn [t_state t_context t_scope t_app t_calls].
  rewrite with_api_key_twice, (with_api_key_self w (_current_api_key w) eq_refl).
  apply (IH sc app c r _ w).
Qed.

Lemma run_app_context steps : forall w,
  _current_api_key (snd (run_app steps w)) = _current_api_key w.
Proof.
  induction steps as [|st steps IH]; intros w; [reflexivity|].
  cbn [run_app]. unfold bind.
  pose proof (run_app_step_context st w) as H.
  destruct (run_app_step st w) as [[e|[]] w1]; cbn [fst snd] in *;
    [exact H|]. rewrite IH. exact H.
Qed.

Lemma run_alone_S n t w :
  run_alone (S n) t w = run_alone n (fst (task_step t w)) (snd (task_step t w)).
Proof. cbn [run_alone]. destruct (task_step t w); reflexivity. Qed.

(** The step of a task that is inside the application. *)
Lemma task_step_running sc app c token st todo calls w :
  task_step (Task sc app c (Running token (st :: todo)) calls) w
  = match run_app_step st (with_api_key c w) with
    | (inr _, w1) =>
        (Task sc app (_current_api_key w1) (Running token todo)
              (calls ++ skipn (List.length (sent w)) (sent w1)),
         with_api_key (_current_api_key w) w1)
    | (inl e, w1) =>
        (Task sc app (_current_api_key (snd (leave token w1)))
              (Finished (inl e))
              (calls ++ skipn (List.length (sent w))
                              (sent (snd (leave token w1)))),
         with_api_key (_current_api_key w) (snd (leave token w1)))
    end.
Proof.
  unfold task_step, next_segment.
  cbn [t_state t_context t_scope t_app t_calls].
  destruct (run_app_step st (with_api_key c w)) as [[e|[]] w1];
    [|reflexivity].
  pose proof (leave_returns token w1) as Hret.
  destruct (leave token w1) as [[e'|[]] w2]; cbn [fst snd] in *;
    [discriminate|reflexivity].
Qed.

(** From inside [await self.app(...)] onwards: the segments of the task,
    taken one after the other, do what [try: ... finally: ...] does. *)
Lemma running_alone sc app token todo : forall c calls w,
  t_state (fst (run_alone (S (List.length todo))
                          (Task sc app c (Running token todo) calls) w))
  = Finished (fst (try_finally (run_app todo) (leave token) (with_api_key c w)))
  /\ snd (run_alone (S (List.length todo))
                    (Task sc app c (Running token todo) calls) w)
     = with_api_key (_current_api_key w)
         (snd (try_finally (run_app todo) (leave token) (with_api_key c w))).
Proof.
  induction todo as [|st todo IH]; intros c calls w.
  - cbn [List.length run_alone]. unfold task_step, next_segment, try_finally.
    cbn [t_state t_context t_scope t_app t_calls run_app ret].
    pose proof (leave_returns token (with_api_key c w)) as Hret.
    destruct (leave token (with_api_key c w)) as [[e|[]] w1];
      cbn [fst snd] in *; [discriminate|]. split; reflexivity.
  - cbn [List.length]. rewrite run_alone_S, task_step_running.
    unfold try_finally. cbn [run_app]. unfold bind.
    destruct (run_app_step st (with_api_key c w)) as [[e|[]] w1];
      cbn [fst snd].
    + pose proof (leave_returns token w1) as Hret.
      destruct (leave token w1) as [[e'|[]] w2]; cbn [fst snd] in *;
        [discriminate|].
      destruct (finished_stays (S (List.length todo)) sc app
                  (_current_api_key w2) (inl e)
                  (calls ++ skipn (List.length (sent w)) (sent w2))
                  (with_api_key (_current_api_key w) w2)) as (H1 & _ & H3).
      split; [exact H1 | exact H3].
    + specialize (IH (_current_api_key w1)
                     (calls ++ skipn (List.length (sent w)) (sent w1))%list
                     (with_api_key (_current_api_key w) w1)).
      rewrite with_api_key_twice,
        (with_api_key_self w1 (_current_api_key w1) eq_refl) in IH.
      exact IH.
Qed.

Lemma task_step_pending sc app w :
  task_step (new_task sc app w) w
  = if String.eqb (scope_type sc) "http"
    then match request_api_key sc with
         | inl e => (Task sc app (_current_api_key w) (Finished (inl e)) [], w)
         | inr k => (Task sc app (Some k)
                          (Running (Some (_current_api_key w)) app) [], w)
         end
    else (Task sc app (_current_api_key w) (Running None app) [], w).
Proof.
  unfold new_task, task_step, next_segment.
  cbn [t_state t_context t_scope t_app t_calls].
  rewrite (with_api_key_self w (_current_api_key w) eq_refl).
  destruct (String.eqb (scope_type sc) "http").
  - unfold_m. destruct (request_api_key sc) as [e|k]; cbn [fst snd].
    + rewrite skipn_all, (with_api_key_self w (_current_api_key w) eq_refl).
      reflexivity.
    + unfold_m. cbn [fst snd sent with_api_key _current_api_key].
      rewrite skipn_all.
      f_equal. destruct w; reflexivity.
  - cbn [fst snd].
    rewrite skipn_all, (with_api_key_self w (_current_api_key w) eq_refl).
    reflexivity.
Qed.

(** Adequacy of the task model: a task that runs with no other task in
    between ends with the outcome, and leaves the world, of one call of
    [APIKeyMiddleware.__call__] on the same application. *)
Lemma task_alone_is_middleware sc app w :
  t_state (fst (run_alone (2 + List.length app) (new_task sc app w) w))
  = Finished (fst (APIKeyMiddleware_call (fun _ => run_app app) sc w))
  /\ snd (run_alone (2 + List.length app) (new_task sc app w) w)
     = snd (APIKeyMiddleware_call (fun _ => run_app app) sc w).
Proof.
  change (2 + List.length app)%nat with (S (S (List.length app))).
  rewrite run_alone_S, task_step_pending.
  unfold APIKeyMiddleware_call.
  destruct (String.eqb (scope_type sc) "http").
  - unfold bind at 1 3, lift.
    destruct (request_api_key sc) as [e|k]; cbn [fst snd].
    + destruct (finished_stays (S (List.length app)) sc app
                  (_current_api_key w) (inl e) [] w) as (H1 & _ & H3).
      split; [exact H1 | exact H3].
    + destruct (running_alone sc app (Some (_current_api_key w)) app (Some k)
                              [] w) as (H1 & H2).
      rewrite H1, H2. clear H1 H2.
      unfold ContextVar_set. unfold_m. cbn [fst snd leave].
      unfold ContextVar_reset, modify.
      destruct (run_app app (with_api_key (Some k) w)) as [r w1].
      cbn [fst snd]. split; reflexivity.
  - cbn [fst snd].
    destruct (running_alone sc app None app (_current_api_key w) [] w)
      as (H1 & H2).
    rewrite (with_api_key_self w (_current_api_key w) eq_refl) in H1, H2.
    rewrite H1, H2. clear H1 H2.
    unfold try_finally, leave, ret.
    pose proof (run_app_context app w) as Hctx.
    destruct (run_app app w) as [r w1]. cbn [fst snd] in *.
    split; [reflexivity|]. apply with_api_key_self. exact Hctx.
Qed.

(** ** Runs on concrete inputs *)

Example request_api_key_header :
  request_api_key (Scope "http" (Some [("x-api-key", "abc123")])
                         (Some "api_key=zzz")) = inr "abc123".
Proof. reflexivity. Qed.

Example request_api_key_last_header_wins :
  request_api_key (Scope "http" (Some [("x-api-key", "old"); ("accept", "*/*");
                                       ("x-api-key", "new")]) None)
  = inr "new".
Proof. reflexivity. Qed.

Example request_api_key_query :
  request_api_key (Scope "http" (Some [("accept", "*/*")])
                         (Some "page=2&api_key=k9&api_key=other")) = inr "k9".
Proof. reflexivity. Qed.

Example request_api_key_anonymous :
  request_api_key (Scope "http" None None) = inr "".
Proof. reflexivity. Qed.

Example request_api_key_bad_bytes :
  request_api_key (Scope "http"
                         (Some [("x-api-key", String (ascii_of_nat 255) "")])
                         None)
  = inl (Exn UnicodeDecodeError "'utf-8' codec can't decode bytes").
Proof. reflexivity. Qed.

Example anonymous_request_sends_no_key :
  map req_headers
      (calls_during (APIKeyMiddleware_call (serving (Call_get_facility "7"))
                                           (Scope "http" (Some []) (Some "")))
                    quiet_world) = [[]].
Proof. vm_compute. reflexivity. Qed.

Example audit_row_written :
  mcp_requests (snd (get_facility "equinix-da1" quiet_world))
  = Some [AuditRow "2025-01-01T00:00:00+00:00" "get_facility"
                   [("facility_id", VStr "equinix-da1")] "mcp"].
Proof. vm_compute. reflexivity. Qed.

Example http_error_message :
  http_error_msg (MkResponse 404 "NOT FOUND"
                             "http://127.0.0.1:5000/api/v1/facilities/x"
                             (inl (Exn requests_JSONDecodeError "Expecting value")))
  = "404 Client Error: NOT FOUND for url: http://127.0.0.1:5000/api/v1/facilities/x".
Proof. reflexivity. Qed.

Example split_examples :
  str_split "&" "a=1&&api_key=k" = ["a=1"; ""; "api_key=k"] /\
  str_split "&" "" = [""] /\
  str_split_once "=" "api_key=k=v" = ["api_key"; "k=v"].
Proof. repeat split. Qed.

Example utf8_examples :
  utf8_valid (String (ascii_of_nat 195) (String (ascii_of_nat 169) "")) = true /\
  utf8_valid (String (ascii_of_nat 195) "") = false /\
  utf8_valid (String (ascii_of_nat 237)
                (String (ascii_of_nat 160) (String (ascii_of_nat 128) "")))
  = false.
Proof. repeat split. Qed.

(** * Further properties of the code *)

(** ** The audit sink, step by step *)

Ltac audit_cases w :=
  let F1 := fresh "F" in let F2 := fresh "F" in let F3 := fresh "F" in
  let F4 := fresh "F" in let F5 := fresh "F" in let F6 := fresh "F" in
  destruct (audit_fault w OpConnect) eqn:F1;
  destruct (audit_fault w OpCreateTable) eqn:F2;
  destruct (audit_fault w OpDumps) eqn:F3;
  destruct (audit_fault w OpInsert) eqn:F4;
  destruct (audit_fault w OpCommit) eqn:F5;
  destruct (audit_fault w OpClose) eqn:F6;
  repeat (progress (cbn; rewrite ?F1, ?F2, ?F3, ?F4, ?F5, ?F6));
  repeat
    (match goal with
     | |- context [if is_Exception ?e then _ else _] =>
         destruct (is_Exception e) eqn:?; cbn
     | |- context [match mcp_requests w with _ => _ end] =>
         destruct (mcp_requests w) eqn:?; cbn
     end;
     repeat (progress (cbn; rewrite ?F1, ?F2, ?F3, ?F4, ?F5, ?F6)));
  try solve [reflexivity | congruence
            | match goal with
              | H : mcp_requests w = _ |- _ => rewrite H; cbn; congruence
              end].

Lemma audit_fault_frame_eq w t :
  audit_fault (with_mcp_requests t w) = audit_fault w.
Proof. reflexivity. Qed.

(** What [_track_mcp_request] returns and logs: decided by the first
    operation that fails. *)
Lemma _track_mcp_request_outcome tool_name params source w :
  (fst (_track_mcp_request tool_name params source w),
   logged (snd (_track_mcp_request tool_name params source w)))
  = match first_fault_among audit_ops w with
    | None => (inr tt, logged w)
    | Some e =>
        if is_Exception e
        then (inr tt, (logged w ++ [LogWarning_track_failed e])%list)
        else (inl e, logged w)
    end.
Proof.
  unfold _track_mcp_request, sqlite3_connect, audit_step,
    create_table_if_not_exists, insert_row, commit_row.
  unfold_m. audit_cases w.
Qed.

(** What [_track_mcp_request] leaves in the table. *)
Lemma _track_mcp_request_rows tool_name params source w :
  table_rows (mcp_requests (snd (_track_mcp_request tool_name params source w)))
  = match first_fault_among audit_ops_to_commit w with
    | None => (table_rows (mcp_requests w)
               ++ [AuditRow (utcnow w) tool_name params source])%list
    | Some _ => table_rows (mcp_requests w)
    end.
Proof.
  unfold _track_mcp_request, sqlite3_connect, audit_step,
    create_table_if_not_exists, insert_row, commit_row.
  unfold_m. audit_cases w.
Qed.

Lemma healthy_no_fault ops w :
  healthy_store w -> first_fault_among ops w = None.
Proof. intros H. induction ops as [|op ops IH]; cbn; [|rewrite H]; auto. Qed.

Lemma healthy_ordinary w : healthy_store w -> ordinary_faults w.
Proof. intros H op e He. rewrite H in He. discriminate. Qed.

Lemma quiet_world_healthy : healthy_store quiet_world.
Proof. intros op. reflexivity. Qed.

(** Once the sink has gone through, the table exists. *)
Lemma _track_mcp_request_table tool_name params source w :
  first_fault_among audit_ops_to_commit w = None ->
  mcp_requests (snd (_track_mcp_request tool_name params source w))
  = Some (table_rows (mcp_requests w)
          ++ [AuditRow (utcnow w) tool_name params source])%list.
Proof.
  unfold _track_mcp_request, sqlite3_connect, audit_step,
    create_table_if_not_exists, insert_row, commit_row.
  unfold_m. cbn. audit_cases w; intros; try discriminate.
Qed.

(** X1. [_track_mcp_request] reports the first operation that fails and
    nothing else: with no failure it returns and logs nothing; an
    ordinary exception is swallowed and logged once, as a warning; any
    other exception ([KeyboardInterrupt] and the like) reaches the caller
    and is not logged. *)
Theorem audit_sink_reports_first_failure tool_name params source w :
  (first_fault_among audit_ops w = None ->
   fst (_track_mcp_request tool_name params source w) = inr tt /\
   logged (snd (_track_mcp_request tool_name params source w)) = logged w) /\
  (forall e,
      first_fault_among audit_ops w = Some e -> is_Exception e = true ->
      fst (_track_mcp_request tool_name params source w) = inr tt /\
      logged (snd (_track_mcp_request tool_name params source w))
      = (logged w ++ [LogWarning_track_failed e])%list) /\
  (forall e,
      first_fault_among audit_ops w = Some e -> is_Exception e = false ->
      fst (_track_mcp_request tool_name params source w) = inl e /\
      logged (snd (_track_mcp_request tool_name params source w)) = logged w).
Proof.
  pose proof (_track_mcp_request_outcome tool_name params source w) as H.
  repeat split; intros;
    match goal with
    | F : first_fault_among _ _ = _ |- _ => rewrite F in H
    end;
    try match goal with
        | E : is_Exception _ = _ |- _ => rewrite E in H
        end;
    inversion H; reflexivity.
Qed.

Lemma audit_sink_reports_first_failure_witness :
  fst (_track_mcp_request "get_news" [] "mcp"
         (with_audit_fault storage_down quiet_world)) = inr tt /\
  logged (snd (_track_mcp_request "get_news" [] "mcp"
                 (with_audit_fault storage_down quiet_world)))
  = [LogWarning_track_failed
       (Exn sqlite3_OperationalError "unable to open database file")].
Proof.
  exact (proj1 (proj2 (audit_sink_reports_first_failure
                         "get_news" [] "mcp"
                         (with_audit_fault storage_down quiet_world)))
               (Exn sqlite3_OperationalError "unable to open database file")
               eq_refl eq_refl).
Defined.

(** X2. A row reaches the audit table exactly when every operation up to
    and including the commit succeeds: then the table holds the rows it
    had followed by the new one (timestamp, tool name, parameters,
    source), also when closing the connection fails afterwards.  When an
    earlier operation fails the rows are the ones the table had. *)
Theorem audit_row_written_iff_committed tool_name params source w :
  (first_fault_among audit_ops_to_commit w = None ->
   mcp_requests (snd (_track_mcp_request tool_name params source w))
   = Some (table_rows (mcp_requests w)
           ++ [AuditRow (utcnow w) tool_name params source])%list) /\
  (forall e,
      first_fault_among audit_ops_to_commit w = Some e ->
      table_rows (mcp_requests
                    (snd (_track_mcp_request tool_name params source w)))
      = table_rows (mcp_requests w)).
Proof.
  split.
  - apply _track_mcp_request_table.
  - intros e He. rewrite _track_mcp_request_rows, He. reflexivity.
Qed.

(** Only the close fails: the row is in the table all the same. *)
Lemma audit_row_written_iff_committed_witness :
  mcp_requests
    (snd (_track_mcp_request "get_news" [("limit", VInt 10)] "mcp"
            (with_audit_fault
               (fun op => match op with
                          | OpClose => Some (Exn sqlite3_ProgrammingError "")
                          | _ => None
                          end)
               quiet_world)))
  = Some [AuditRow "2025-01-01T00:00:00+00:00" "get_news"
                   [("limit", VInt 10)] "mcp"].
Proof.
  exact (proj1 (audit_row_written_iff_committed
                  "get_news" [("limit", VInt 10)] "mcp"
                  (with_audit_fault
                     (fun op => match op with
                                | OpClose => Some (Exn sqlite3_ProgrammingError "")
                                | _ => None
                                end)
                     quiet_world))
               eq_refl).
Defined.

(** ** What the handlers leave in the audit table *)

Lemma tool_body_store tool_name recorded path query w :
  mcp_requests (snd (tool_body tool_name recorded path query w))
  = mcp_requests (snd (_track_mcp_request tool_name recorded "mcp" w)).
Proof.
  unfold tool_body, bind.
  destruct (_track_mcp_request tool_name recorded "mcp" w) as [[e|[]] w1];
    cbn [fst snd]; [reflexivity|].
  pose proof (_api_get_frame path query w1) as (_ & _ & _ & _ & Hm & _).
  destruct (_api_get path query w1) as [[e|j] w2]; cbn [fst snd ret] in *;
    exact Hm.
Qed.

Lemma dispatch_rows c w :
  exists new,
    table_rows (mcp_requests (snd (dispatch c w)))
    = (table_rows (mcp_requests w) ++ new)%list /\
    (List.length new <= 1)%nat.
Proof.
  rewrite dispatch_tool_body, tool_body_store, _track_mcp_request_rows.
  destruct (first_fault_among audit_ops_to_commit w).
  - exists []. rewrite app_nil_r. split; [reflexivity|cbn; lia].
  - eexists. split; [reflexivity|cbn; lia].
Qed.

(** X3. The audit table is append-only: whatever tool calls an
    application makes, whether they succeed or fail and whatever the
    storage does, the rows that were in the table are still there, in
    the same order, followed by at most one new row per call. *)
Theorem audit_table_is_append_only (steps : list app_step) : forall w,
  exists new,
    table_rows (mcp_requests (snd (run_app steps w)))
    = (table_rows (mcp_requests w) ++ new)%list /\
    (List.length new <= List.length steps)%nat.
Proof.
  induction steps as [|st steps IH]; intros w.
  - exists []. cbn. rewrite app_nil_r. split; [reflexivity|lia].
  - cbn [run_app]. unfold bind.
    assert (Hst : exists new,
               table_rows (mcp_requests (snd (run_app_step st w)))
               = (table_rows (mcp_requests w) ++ new)%list /\
               (List.length new <= 1)%nat).
    { destruct st as [c| |e]; cbn [run_app_step].
      - destruct (dispatch_rows c w) as (new & H1 & H2). exists new.
        unfold bind, ret. destruct (dispatch c w) as [[e|t] w']; auto.
      - exists []. cbn. rewrite app_nil_r. split; [reflexivity|lia].
      - exists []. cbn. rewrite app_nil_r. split; [reflexivity|lia]. }
    destruct Hst as (new1 & H1 & L1).
    destruct (run_app_step st w) as [[e|[]] w1]; cbn [fst snd] in *.
    + exists new1. split; [exact H1|cbn; lia].
    + destruct (IH w1) as (new2 & H2 & L2).
      exists (new1 ++ new2)%list. rewrite H2, H1, app_assoc.
      split; [reflexivity|]. rewrite length_app. cbn. lia.
Qed.

Lemma tool_body_records tool_name path (query : dict pyval) w :
  healthy_store w ->
  records_what_it_sends (tool_body tool_name query path (Some query))
                        tool_name w.
Proof.
  intros Hh. exists (api_request path (Some query) w). split.
  - apply tool_body_calls, healthy_ordinary, Hh.
  - rewrite tool_body_store. apply _track_mcp_request_table.
    apply healthy_no_fault, Hh.
Qed.

(** X4. With the storage in order, each of the four tools that build a
    query ([search_facilities], [list_transactions], [get_news],
    [analyze_site]) makes one backend call and leaves one audit row that
    holds its own name and exactly the query mapping it sent, whatever
    the backend then answers. *)
Theorem audit_records_the_query_sent w :
  healthy_store w ->
  (forall query country state city provider limit,
      records_what_it_sends
        (search_facilities query country state city provider limit)
        "search_facilities" w) /\
  (forall year buyer seller limit,
      records_what_it_sends (list_transactions year buyer seller limit)
                            "list_transactions" w) /\
  (forall topic source limit,
      records_what_it_sends (get_news topic source limit) "get_news" w) /\
  (forall latitude longitude address radius_miles,
      records_what_it_sends
        (analyze_site latitude longitude address radius_miles)
        "analyze_site" w).
Proof.
  intros Hh. repeat split; intros; apply tool_body_records; exact Hh.
Qed.

Lemma audit_records_the_query_sent_witness :
  records_what_it_sends (get_news "AI" "" 500) "get_news" quiet_world.
Proof.
  exact (proj1 (proj2 (proj2 (audit_records_the_query_sent
                                quiet_world quiet_world_healthy)))
               "AI" "" 500).
Defined.

(** ** The two tools that address one resource *)

(** X5. [get_facility] puts the identifier into the path as it is given,
    with no escaping and no check (an empty one gives the path
    ["/api/v1/facilities/"]), sends no query parameter, and with the
    storage in order leaves an audit row holding that identifier. *)
Theorem get_facility_path_is_verbatim (facility_id : string) w :
  healthy_store w ->
  calls_during (get_facility facility_id) w
  = [Request (BACKEND_BASE w ++ "/api/v1/facilities/" ++ facility_id) []
             (forwarded_headers (current_key w)) 15] /\
  mcp_requests (snd (get_facility facility_id w))
  = Some (table_rows (mcp_requests w)
          ++ [AuditRow (utcnow w) "get_facility"
                       [("facility_id", VStr facility_id)] "mcp"])%list.
Proof.
  intros Hh.
  change (get_facility facility_id) with (dispatch (Call_get_facility facility_id)).
  rewrite dispatch_tool_body. split.
  - rewrite tool_body_calls by (apply healthy_ordinary, Hh). reflexivity.
  - rewrite tool_body_store. apply _track_mcp_request_table.
    apply healthy_no_fault, Hh.
Qed.

Lemma get_facility_path_is_verbatim_witness :
  calls_during (get_facility "../markets/list?x=1") quiet_world
  = [Request "http://127.0.0.1:5000/api/v1/facilities/../markets/list?x=1"
             [] [] 15].
Proof.
  exact (proj1 (get_facility_path_is_verbatim "../markets/list?x=1"
                  quiet_world quiet_world_healthy)).
Defined.

(** X6. [get_market_intel] calls the list endpoint when [market] is
    empty and the endpoint of that market otherwise, the market name put
    into the path as it is; it sends no query parameter, so [metric]
    reaches the backend in no form, although the audit row records both
    arguments. *)
Theorem market_intel_routing (market metric : string) w :
  healthy_store w ->
  calls_during (get_market_intel market metric) w
  = [Request (BACKEND_BASE w
              ++ (if String.eqb market "" then "/api/v1/markets/list"
                  else "/api/v1/markets/" ++ market))
             [] (forwarded_headers (current_key w)) 15] /\
  mcp_requests (snd (get_market_intel market metric w))
  = Some (table_rows (mcp_requests w)
          ++ [AuditRow (utcnow w) "get_market_intel"
                       [("market", VStr market); ("metric", VStr metric)]
                       "mcp"])%list.
Proof.
  intros Hh.
  change (get_market_intel market metric)
    with (dispatch (Call_get_market_intel market metric)).
  rewrite dispatch_tool_body. split.
  - rewrite tool_body_calls by (apply healthy_ordinary, Hh).
    cbn [tool_path tool_query truthy api_request params_or_empty].
    destruct (String.eqb market ""); reflexivity.
  - rewrite tool_body_store. apply _track_mcp_request_table.
    apply healthy_no_fault, Hh.
Qed.

Lemma market_intel_routing_witness :
  calls_during (get_market_intel "" "pricing") quiet_world
  = [Request "http://127.0.0.1:5000/api/v1/markets/list" [] [] 15] /\
  calls_during (get_market_intel "Dallas" "pricing") quiet_world
  = [Request "http://127.0.0.1:5000/api/v1/markets/Dallas" [] [] 15].
Proof.
  split.
  - exact (proj1 (market_intel_routing "" "pricing" quiet_world
                    quiet_world_healthy)).
  - exact (proj1 (market_intel_routing "Dallas" "pricing" quiet_world
                    quiet_world_healthy)).
Defined.

Lemma _track_mcp_request_result_any tool_name params source
      tool_name' params' source' w :
  fst (_track_mcp_request tool_name params source w)
  = fst (_track_mcp_request tool_name' params' source' w).
Proof.
  pose proof (_track_mcp_request_outcome tool_name params source w) as H1.
  pose proof (_track_mcp_request_outcome tool_name' params' source' w) as H2.
  destruct (first_fault_among audit_ops w) as [e|];
    [destruct (is_Exception e)|]; inversion H1; inversion H2; congruence.
Qed.

(** What a handler returns and sends does not depend on what it hands to
    the audit sink. *)
Lemma tool_body_recorded_irrelevant name recorded recorded' path query w :
  fst (tool_body name recorded path query w)
  = fst (tool_body name recorded' path query w) /\
  sent (snd (tool_body name recorded path query w))
  = sent (snd (tool_body name recorded' path query w)).
Proof.
  pose proof (_track_mcp_request_result_any name recorded "mcp"
                                            name recorded' "mcp" w) as Hfst.
  pose proof (_track_mcp_request_frame name recorded "mcp" w)
    as (He & Hk & Hb & Hs & _).
  pose proof (_track_mcp_request_frame name recorded' "mcp" w)
    as (He' & Hk' & Hb' & Hs' & _).
  unfold tool_body, bind.
  destruct (_track_mcp_request name recorded "mcp" w) as [[e|[]] w1];
    destruct (_track_mcp_request name recorded' "mcp" w) as [[e'|[]] w1'];
    cbn [fst snd] in *; try discriminate.
  - split; congruence.
  - pose proof (_api_get_result_ext path query w1 w1') as Hres.
    pose proof (_api_get_sent path query w1) as S1.
    pose proof (_api_get_sent path query w1') as S1'.
    assert (Hsame : same_for_backend w1 w1')
      by (repeat split; congruence).
    specialize (Hres Hsame).
    destruct (_api_get path query w1) as [[e|j] w2];
      destruct (_api_get path query w1') as [[e'|j'] w2'];
      cbn [fst snd ret] in *; try discriminate;
      (split; [congruence|]);
      rewrite S1, S1', Hs, Hs',
        (api_request_ext path query w w1),
        (api_request_ext path query w w1') by congruence;
      reflexivity.
Qed.

(** X7. The [metric] argument of [get_market_intel] has no effect on
    the caller's side: whatever the storage and the backend do, two
    invocations that differ in [metric] only return the same text (or
    raise the same exception) and make the same backend call. *)
Theorem market_intel_ignores_metric (market metric metric' : string) w :
  fst (get_market_intel market metric w)
  = fst (get_market_intel market metric' w) /\
  calls_during (get_market_intel market metric) w
  = calls_during (get_market_intel market metric') w.
Proof.
  change (get_market_intel market metric)
    with (dispatch (Call_get_market_intel market metric)).
  change (get_market_intel market metric')
    with (dispatch (Call_get_market_intel market metric')).
  rewrite !dispatch_tool_body. unfold calls_during.
  cbn [tool_name tool_path tool_query tool_recorded].
  destruct (tool_body_recorded_irrelevant
              "get_market_intel"
              [("market", VStr market); ("metric", VStr metric)]
              [("market", VStr market); ("metric", VStr metric')]
              (if truthy (VStr market) then "/api/v1/markets/" ++ market
               else "/api/v1/markets/list")
              None w) as [H1 H2].
  split; [exact H1|]. now rewrite H2.
Qed.

(** ** Which keys the filter keeps *)

Lemma dict_get_not_in {V} k (d : dict V) :
  ~ In k (map fst d) -> dict_get k d = None.
Proof.
  induction d as [|[k' v] d IH]; cbn; [reflexivity|].
  intros H. destruct (String.eqb_spec k k') as [->|_].
  - exfalso. apply H. now left.
  - apply IH. intros Hin. apply H. now right.
Qed.

Lemma keep_truthy_keys d k : In k (map fst (keep_truthy d)) -> In k (map fst d).
Proof.
  unfold keep_truthy. rewrite !in_map_iff.
  intros ([k' v] & <- & H). apply filter_In in H as [H _].
  exists (k', v). split; [reflexivity|exact H].
Qed.

(** In a mapping whose keys are distinct, a key survives the filter
    exactly when its value is true. *)
Lemma dict_get_keep_truthy d k :
  NoDup (map fst d) ->
  dict_get k (keep_truthy d)
  = match dict_get k d with
    | Some v => if truthy v then Some v else None
    | None => None
    end.
Proof.
  induction d as [|[k' v] d IH]; intros Hnd; [reflexivity|].
  inversion Hnd as [|? ? Hnotin Hnd']; subst.
  cbn [dict_get keep_truthy filter snd]. fold (keep_truthy d).
  destruct (String.eqb_spec k k') as [->|Hne].
  - destruct (truthy v) eqn:Hv.
    + cbn [dict_get]. now rewrite String.eqb_refl.
    + apply dict_get_not_in. intros Hin. apply Hnotin.
      now apply keep_truthy_keys.
  - destruct (truthy v).
    + cbn [dict_get]. apply String.eqb_neq in Hne. rewrite Hne. now apply IH.
    + now apply IH.
Qed.

Ltac distinct_keys :=
  cbn; repeat constructor; cbn; intuition discriminate.

(** X8. [list_transactions] sends the [year] filter exactly when [year]
    is not zero, and then with the value given, negative or not; with
    [year = 0] (all years) the query has no [year] key.  The [buyer] and
    [seller] filters are sent exactly when they are not empty. *)
Theorem transactions_filters (year : Z) (buyer seller : string) (limit : Z) w :
  ordinary_faults w ->
  exists r,
    calls_during (list_transactions year buyer seller limit) w = [r] /\
    req_url r = BACKEND_BASE w ++ "/api/v1/transactions" /\
    dict_get "year" (req_params r)
    = (if year =? 0 then None else Some (VInt year)) /\
    dict_get "buyer" (req_params r)
    = (if String.eqb buyer "" then None else Some (VStr buyer)) /\
    dict_get "seller" (req_params r)
    = (if String.eqb seller "" then None else Some (VStr seller)).
Proof.
  intros Hord.
  change (list_transactions year buyer seller limit)
    with (dispatch (Call_list_transactions year buyer seller limit)).
  rewrite dispatch_tool_body, tool_body_calls by assumption.
  eexists; split; [reflexivity|]. split; [reflexivity|].
  cbn [api_request req_params params_or_empty tool_query].
  rewrite !dict_get_keep_truthy by distinct_keys.
  cbn. destruct (year =? 0) eqn:Hy, (String.eqb buyer ""),
    (String.eqb seller "");
    cbn; rewrite ?Hy; cbn; repeat split.
Qed.

Lemma transactions_filters_witness :
  exists r,
    calls_during (list_transactions (-44) "" "Equinix" 25) quiet_world = [r] /\
    dict_get "year" (req_params r) = Some (VInt (-44)) /\
    dict_get "buyer" (req_params r) = None /\
    dict_get "seller" (req_params r) = Some (VStr "Equinix").
Proof.
  destruct (transactions_filters (-44) "" "Equinix" 25 quiet_world
              quiet_world_ordinary) as (r & Hr & _ & Hy & Hb & Hs).
  exists r. repeat split; assumption.
Defined.

(** X9. [analyze_site] sends [radius] as [radius_miles] times 1609 for
    every [radius_miles] other than zero, negative ones included, and
    leaves the key out for zero; it sends [address] whenever the address
    is not empty, whether or not coordinates are given as well. *)
Theorem analyze_site_radius_and_address
        (latitude longitude : float) (address : string) (radius_miles : Z) w :
  ordinary_faults w ->
  exists r,
    calls_during (analyze_site latitude longitude address radius_miles) w = [r] /\
    dict_get "radius" (req_params r)
    = (if radius_miles =? 0 then None else Some (VInt (radius_miles * 1609))) /\
    dict_get "address" (req_params r)
    = (if String.eqb address "" then None else Some (VStr address)) /\
    dict_get "lat" (req_params r)
    = (if PrimFloat.eqb latitude 0%float then None else Some (VFloat latitude)) /\
    dict_get "lng" (req_params r)
    = (if PrimFloat.eqb longitude 0%float then None
       else Some (VFloat longitude)).
Proof.
  intros Hord.
  change (analyze_site latitude longitude address radius_miles)
    with (dispatch (Call_analyze_site latitude longitude address radius_miles)).
  rewrite dispatch_tool_body, tool_body_calls by assumption.
  eexists; split; [reflexivity|].
  cbn [api_request req_params params_or_empty tool_query].
  rewrite !dict_get_keep_truthy by distinct_keys.
  cbn.
  assert (Hr : (radius_miles * 1609 =? 0) = (radius_miles =? 0)).
  { destruct (Z.eqb_spec radius_miles 0), (Z.eqb_spec (radius_miles * 1609) 0);
      try reflexivity; lia. }
  rewrite Hr.
  destruct (radius_miles =? 0), (String.eqb address ""),
    (PrimFloat.eqb latitude 0) eqn:Hla, (PrimFloat.eqb longitude 0) eqn:Hlo;
    cbn; rewrite ?Hla, ?Hlo; cbn; repeat split.
Qed.

Lemma analyze_site_radius_and_address_witness :
  exists r,
    calls_during (analyze_site 32.7767%float (-96.7970)%float
                               "1 Main St, Dallas" (-3)) quiet_world = [r] /\
    dict_get "radius" (req_params r) = Some (VInt (-4827)) /\
    dict_get "address" (req_params r) = Some (VStr "1 Main St, Dallas") /\
    dict_get "lat" (req_params r) = Some (VFloat 32.7767%float).
Proof.
  destruct (analyze_site_radius_and_address
              32.7767%float (-96.7970)%float "1 Main St, Dallas" (-3)
              quiet_world quiet_world_ordinary) as (r & Hr & Hrad & Ha & Hlat & _).
  exists r. repeat split; assumption.
Defined.

(** X10. From 1 upwards [limit] is sent as the smaller of [limit] and the
    cap (100 for [search_facilities] and [list_transactions], 50 for
    [get_news]): unchanged up to the cap, the cap itself above it. *)
Theorem limit_capped_from_above (limit : Z) w :
  ordinary_faults w ->
  1 <= limit ->
  map (fun r => dict_get "limit" (req_params r))
      (calls_during (search_facilities "" "" "" "" "" limit) w)
  = [Some (VInt (Z.min limit 100))] /\
  map (fun r => dict_get "limit" (req_params r))
      (calls_during (list_transactions 0 "" "" limit) w)
  = [Some (VInt (Z.min limit 100))] /\
  map (fun r => dict_get "limit" (req_params r))
      (calls_during (get_news "" "" limit) w)
  = [Some (VInt (Z.min limit 50))].
Proof.
  intros Hord Hge.
  assert (Hmin : forall cap, py_min limit cap = Z.min limit cap).
  { intros cap. unfold py_min. destruct (Z.ltb_spec cap limit); lia. }
  destruct (limit_at_least_one_is_clamped limit w Hord Hge)
    as (H1 & H2 & H3 & _).
  rewrite <- !Hmin. auto.
Qed.

Lemma limit_capped_from_above_witness :
  map (fun r => dict_get "limit" (req_params r))
      (calls_during (get_news "" "" 51) quiet_world)
  = [Some (VInt 50)].
Proof.
  exact (proj2 (proj2 (limit_capped_from_above 51 quiet_world
                         quiet_world_ordinary ltac:(lia)))).
Defined.

(** ** The backend client, call by call *)

(** X11. [_api_get] makes exactly one HTTP call whatever comes back,
    failure included (it never retries): to the URL made of the value of
    the environment variable [BACKEND_BASE_URL], or
    ["http://127.0.0.1:5000"] when that is not set, followed by the path;
    with the mapping it was given; with a timeout of 15; and with no
    header other than [X-API-Key], present when a key is bound. *)
Theorem api_get_calls_once path params w :
  exists r,
    calls_during (_api_get path params) w = [r] /\
    req_url r
    = match dict_get "BACKEND_BASE_URL" (environ w) with
      | Some base => base
      | None => "http://127.0.0.1:5000"
      end ++ path /\
    req_params r = match params with Some d => d | None => [] end /\
    req_timeout r = 15 /\
    req_headers r
    = match _current_api_key w with
      | None | Some "" => []
      | Some key => [("X-API-Key", key)]
      end.
Proof.
  exists (api_request path params w).
  split; [apply _api_get_calls|]. repeat split.
  cbn [api_request req_headers]. unfold current_key, forwarded_headers.
  destruct (_current_api_key w) as [[|c k]|]; reflexivity.
Qed.

(** X12. [_api_get] catches the exceptions of the HTTP library only: any
    other exception raised during the call reaches the caller as it is,
    and no error record is logged for it. *)
Theorem api_get_lets_other_exceptions_through path params w e :
  backend w (sent w) (api_request path params w) = HttpRaises e ->
  is_RequestException e = false ->
  fst (_api_get path params w) = inl e /\
  forall p q x, ~ In (LogError_api_call_failed p q x)
                     (skipn (List.length (logged w))
                            (logged (snd (_api_get path params w)))).
Proof.
  intros Hb He. split.
  - rewrite _api_get_result, Hb, He. reflexivity.
  - intros p q x. revert Hb.
    unfold _api_get, http_requests_get, api_request, current_key, BACKEND_BASE,
      environ_get.
    unfold_m. cbn.
    destruct (_current_api_key w) as [k|]; cbn;
      [destruct (negb (String.eqb k "")); cbn|];
      intros Hb; rewrite Hb; cbn; rewrite He; cbn;
      rewrite ?skipn_length_app, ?skipn_all; cbn; intuition discriminate.
Qed.

Lemma api_get_lets_other_exceptions_through_witness :
  fst (_api_get "/api/v1/news" None interrupted_world)
  = inl (Exn KeyboardInterrupt "").
Proof.
  exact (proj1 (api_get_lets_other_exceptions_through
                  "/api/v1/news" None interrupted_world
                  (Exn KeyboardInterrupt "") eq_refl eq_refl)).
Defined.

(** ** Handlers and backend together *)

Lemma dispatch_result c w :
  ordinary_faults w ->
  fst (dispatch c w)
  = match fst (_api_get (tool_path c) (tool_query c) w) with
    | inl e => inl e
    | inr j => inr (json_dumps j 2)
    end.
Proof.
  intros Hord. rewrite dispatch_tool_body.
  apply tool_body_result, _track_mcp_request_returns, Hord.
Qed.

(** X13. When the backend cannot be reached, each call failing with an
    exception of the HTTP library, every tool returns normally, and what
    it returns is the text of [{"error": "Backend request failed:
    <message>"}] with indent 2. *)
Theorem tools_turn_backend_failure_into_text (c : tool_call) w e :
  ordinary_faults w ->
  (forall history r, backend w history r = HttpRaises e) ->
  is_RequestException e = true ->
  fst (dispatch c w)
  = inr (json_dumps
           (JDict [("error", JStr ("Backend request failed: " ++ exn_str e))])
           2).
Proof.
  intros Hord Hb He.
  rewrite dispatch_result, _api_get_result, Hb, He by assumption.
  reflexivity.
Qed.

Lemma timeout_world_ordinary : ordinary_faults timeout_world.
Proof. intros op e H. discriminate H. Qed.

Lemma tools_turn_backend_failure_into_text_witness :
  fst (dispatch (Call_analyze_site 0 0 "1 Main St" 25) timeout_world)
  = inr (json_dumps
           (JDict [("error", JStr "Backend request failed: Read timed out.")])
           2).
Proof.
  exact (tools_turn_backend_failure_into_text
           (Call_analyze_site 0 0 "1 Main St" 25) timeout_world
           (Exn requests_Timeout "Read timed out.")
           timeout_world_ordinary (fun _ _ => eq_refl) eq_refl).
Defined.

(** X14. A tool hands the backend's answer through untouched: when the
    backend answers with a status outside 400..599 and [resp.json()]
    decodes the body to a value, the tool returns the text of exactly
    that value with indent 2. *)
Theorem tools_pass_backend_json_through (c : tool_call) w resp (j : json) :
  ordinary_faults w ->
  (forall history r, backend w history r = HttpResponds resp) ->
  ~ 400 <= status_code resp < 600 ->
  body resp = inr j ->
  fst (dispatch c w) = inr (json_dumps j 2).
Proof.
  intros Hord Hb Hst Hj.
  rewrite dispatch_result, _api_get_result, Hb by assumption.
  rewrite raise_for_status_pass, Hj by assumption. reflexivity.
Qed.

Lemma tools_pass_backend_json_through_witness :
  fst (dispatch (Call_get_facility "equinix-da1") quiet_world)
  = inr (json_dumps (JDict []) 2).
Proof.
  exact (tools_pass_backend_json_through
           (Call_get_facility "equinix-da1") quiet_world
           (MkResponse 200 "OK" "" (inr (JDict []))) (JDict [])
           quiet_world_ordinary (fun _ _ => eq_refl)
           ltac:(cbn; lia) eq_refl).
Defined.

(** X15. An error status of the backend reaches the caller of a tool as
    text too: for a status in 400..599 the tool returns the error
    mapping whose message names the status, its reason and the URL, and
    the body of the response is not looked at. *)
Theorem tools_report_error_status (c : tool_call) w resp :
  ordinary_faults w ->
  (forall history r, backend w history r = HttpResponds resp) ->
  400 <= status_code resp < 600 ->
  fst (dispatch c w)
  = inr (json_dumps
           (JDict [("error",
                    JStr ("Backend request failed: "
                            ++ str_of_int (status_code resp)
                            ++ (if status_code resp <? 500
                                then " Client Error: "
                                else " Server Error: ")
                            ++ reason resp ++ " for url: " ++ resp_url resp))])
           2).
Proof.
  intros Hord Hb Hst.
  rewrite dispatch_result, _api_get_result, Hb by assumption.
  rewrite raise_for_status_error by assumption.
  unfold error_payload, http_error_msg. cbn [exn_str].
  destruct (Z.leb_spec 400 (status_code resp)); [|lia].
  destruct (Z.ltb_spec (status_code resp) 500); cbn [andb]; [reflexivity|].
  destruct (Z.leb_spec 500 (status_code resp)); [|lia].
  destruct (Z.ltb_spec (status_code resp) 600); [|lia].
  reflexivity.
Qed.

Lemma unavailable_world_ordinary : ordinary_faults unavailable_world.
Proof. intros op e H. discriminate H. Qed.

Lemma tools_report_error_status_witness :
  fst (dispatch (Call_get_news "" "" 10) unavailable_world)
  = inr (json_dumps
           (JDict [("error",
                    JStr "Backend request failed: 503 Server Error: SERVICE UNAVAILABLE for url: http://127.0.0.1:5000/api/v1/news")])
           2).
Proof.
  exact (tools_report_error_status
           (Call_get_news "" "" 10) unavailable_world unavailable
           unavailable_world_ordinary (fun _ _ => eq_refl) ltac:(cbn; lia)).
Defined.

(** X16. A handler records before it fetches: when the audit sink lets
    an exception through (one that is no instance of [Exception]), the
    handler ends with that exception and has not called the backend. *)
Theorem interrupted_audit_stops_the_handler (c : tool_call) w e :
  first_fault_among audit_ops w = Some e ->
  is_Exception e = false ->
  fst (dispatch c w) = inl e /\ calls_during (dispatch c) w = [].
Proof.
  intros Hf He. rewrite dispatch_tool_body.
  pose proof (_track_mcp_request_outcome (tool_name c) (tool_recorded c)
                                         "mcp" w) as Hout.
  pose proof (_track_mcp_request_frame (tool_name c) (tool_recorded c)
                                       "mcp" w) as (_ & _ & _ & Hs & _).
  rewrite Hf, He in Hout. unfold calls_during, tool_body, bind.
  destruct (_track_mcp_request (tool_name c) (tool_recorded c) "mcp" w)
    as [[e'|[]] w1]; cbn [fst snd] in *; inversion Hout; subst.
  split; [reflexivity|]. rewrite Hs. apply skipn_all.
Qed.

Lemma interrupted_audit_stops_the_handler_witness :
  fst (dispatch (Call_get_news "" "" 10)
                (with_audit_fault interrupted quiet_world))
  = inl (Exn KeyboardInterrupt "") /\
  calls_during (dispatch (Call_get_news "" "" 10))
               (with_audit_fault interrupted quiet_world) = [].
Proof.
  exact (interrupted_audit_stops_the_handler
           (Call_get_news "" "" 10) (with_audit_fault interrupted quiet_world)
           (Exn KeyboardInterrupt "") eq_refl eq_refl).
Defined.

(** ** What the backend client logs *)

(** X17. With logging at level INFO, as the module configures it,
    [_api_get] adds exactly one record to the log when it turns a failure
    into the error mapping (an error record holding the path, the
    mapping and the exception caught) and no record otherwise: none for
    a call that succeeds, none for an exception it lets through, and no
    debug record about the key, whether a key is bound or not. *)
Theorem api_get_logs_caught_failures_only path params w :
  logged (snd (_api_get path params w))
  = (logged w
     ++ match backend w (sent w) (api_request path params w) with
        | HttpRaises e =>
            if is_RequestException e
            then [LogError_api_call_failed path params e]
            else []
        | HttpResponds r =>
            match raise_for_status r with
            | inl e => [LogError_api_call_failed path params e]
            | inr _ =>
                match body r with
                | inl e =>
                    if is_RequestException e
                    then [LogError_api_call_failed path params e]
                    else []
                | inr _ => []
                end
            end
        end)%list.
Proof.
  unfold _api_get, http_requests_get, api_request, current_key, BACKEND_BASE,
    environ_get, Response_json.
  unfold_m. cbn.
  destruct (_current_api_key w) as [k|]; cbn;
    [destruct (negb (String.eqb k "")); cbn|];
    match goal with
    | |- context [backend w (sent w) ?r] =>
        destruct (backend w (sent w) r) as [e|r']; cbn
    end;
    try (destruct (is_RequestException e); cbn;
         rewrite ?app_nil_r; reflexivity);
    unfold raise_for_status;
    destruct (truthy (VStr (http_error_msg r'))); cbn; try reflexivity;
    destruct (body r') as [e|j]; cbn; rewrite ?app_nil_r; try reflexivity;
    destruct (is_RequestException e); cbn; rewrite ?app_nil_r; reflexivity.
Qed.

(** ** The middleware around any application *)

(** X18. For an HTTP request whose key is read as [k], the middleware
    runs the application with [k] bound, hands on the application's
    outcome, and leaves the world the application left except that the
    variable is bound again to whatever it was bound to before the
    request: also when something was bound before, and also when the
    application has bound the variable itself. *)
Theorem middleware_restores_prior_binding (app : scope -> M unit) sc w k :
  scope_type sc = "http" ->
  request_api_key sc = inr k ->
  APIKeyMiddleware_call app sc w
  = (fst (app sc (with_api_key (Some k) w)),
     with_api_key (_current_api_key w) (snd (app sc (with_api_key (Some k) w)))).
Proof.
  intros Hhttp Hk. unfold APIKeyMiddleware_call.
  rewrite (http_scope _ Hhttp). unfold_m. rewrite Hk. cbn.
  destruct (app sc (with_api_key (Some k) w)) as [r w']; reflexivity.
Qed.

Lemma middleware_restores_prior_binding_witness :
  _current_api_key
    (snd (APIKeyMiddleware_call rebinding_app
            (Scope "http" (Some [("x-api-key", "inner")]) None)
            (with_api_key (Some "outer") quiet_world)))
  = Some "outer".
Proof.
  exact (f_equal (fun p => _current_api_key (snd p))
                 (middleware_restores_prior_binding
                    rebinding_app
                    (Scope "http" (Some [("x-api-key", "inner")]) None)
                    (with_api_key (Some "outer") quiet_world) "inner"
                    eq_refl eq_refl)).
Defined.

(** X19. For a scope of any other type (["websocket"], ["lifespan"]) the
    middleware reads no credential: a tool call served behind it carries
    the key that was bound already, so no [X-API-Key] header when none
    was bound, whatever the headers and the query string of the scope
    say. *)
Theorem other_scopes_forward_nothing sc (c : tool_call) w :
  scope_type sc <> "http" ->
  ordinary_faults w ->
  _current_api_key w = None ->
  exists r,
    calls_during (APIKeyMiddleware_call (serving c) sc) w = [r] /\
    req_headers r = [].
Proof.
  intros Hne Hord Hnone. unfold APIKeyMiddleware_call.
  apply String.eqb_neq in Hne. rewrite Hne.
  exists (api_request (tool_path c) (tool_query c) w). split.
  - pose proof (dispatch_sent c w Hord) as Hs.
    unfold calls_during, serving, bind, ret.
    destruct (dispatch c w) as [[e|t] w']; cbn [fst snd] in *;
      rewrite Hs; apply skipn_length_app.
  - cbn [api_request req_headers]. unfold current_key. now rewrite Hnone.
Qed.

Lemma other_scopes_forward_nothing_witness :
  exists r,
    calls_during
      (APIKeyMiddleware_call (serving (Call_get_facility "7"))
         (Scope "websocket" (Some [("x-api-key", "abc123")])
                (Some "api_key=abc123")))
      quiet_world = [r] /\
    req_headers r = [].
Proof.
  exact (other_scopes_forward_nothing
           (Scope "websocket" (Some [("x-api-key", "abc123")])
                  (Some "api_key=abc123"))
           (Call_get_facility "7") quiet_world
           ltac:(discriminate) quiet_world_ordinary eq_refl).
Defined.

(** ** Reading the key never fails on well-formed text *)

Lemma prefix_cons_inv a s1 c s2 :
  String.prefix (String a s1) (String c s2) = true ->
  a = c /\ String.prefix s1 s2 = true.
Proof.
  cbn [String.prefix]. destruct (ascii_dec a c); [auto|discriminate].
Qed.

Lemma startswith_api_key param :
  startswith param "api_key=" = true -> exists v, param = "api_key=" ++ v.
Proof.
  unfold startswith. intros H.
  do 8 (destruct param as [|c param]; [discriminate H|];
        apply prefix_cons_inv in H as [<- H]).
  exists param. reflexivity.
Qed.

Lemma api_key_param_total pieces : exists found, api_key_param pieces = inr found.
Proof.
  induction pieces as [|param rest IH]; cbn [api_key_param]; [now eexists|].
  destruct (startswith param "api_key=") eqn:Hp; [|exact IH].
  destruct (startswith_api_key param Hp) as [v ->]. cbn. now eexists.
Qed.

Lemma key_extraction sc :
  match request_api_key sc with
  | inr _ => True
  | inl e =>
      utf8_valid (header_value sc) = false \/
      (header_value sc = "" /\
       utf8_valid (scope_get_query_string sc) = false)
  end.
Proof.
  unfold request_api_key, decode_utf8, header_value. cbv zeta.
  generalize (match dict_get "x-api-key" (dict_of_pairs (scope_get_headers sc))
              with Some v => v | None => "" end).
  generalize (scope_get_query_string sc). intros q h.
  destruct (utf8_valid h) eqn:Hh; [|now left].
  cbn [truthy negb]. destruct (String.eqb_spec h "") as [->|Hne]; cbn [negb];
    [|exact I].
  destruct (utf8_valid q) eqn:Hq; [|now right].
  destruct (api_key_param_total (str_split "&" q)) as [[v|] ->]; exact I.
Qed.

(** X20. Reading the key of a request fails in one way only, with
    [UnicodeDecodeError], and exactly when the header value is not valid
    UTF-8 or, the header being absent or empty, the query string is not:
    the indexing [param.split("=", 1)[1]] never goes out of range, and a
    query string that is not valid UTF-8 is harmless when the header
    carries a key. *)
Theorem key_reading_fails_only_on_bad_utf8 sc :
  match request_api_key sc with
  | inr _ =>
      utf8_valid (header_value sc) = true /\
      (header_value sc = "" -> utf8_valid (scope_get_query_string sc) = true)
  | inl e =>
      exn_cls e = UnicodeDecodeError /\
      (utf8_valid (header_value sc) = false \/
       (header_value sc = "" /\
        utf8_valid (scope_get_query_string sc) = false))
  end.
Proof.
  unfold request_api_key, decode_utf8, header_value. cbv zeta.
  generalize (match dict_get "x-api-key" (dict_of_pairs (scope_get_headers sc))
              with Some v => v | None => "" end).
  generalize (scope_get_query_string sc). intros q h.
  destruct (utf8_valid h) eqn:Hh; [|split; [reflexivity|now left]].
  cbn [truthy negb]. destruct (String.eqb_spec h "") as [->|Hne]; cbn [negb].
  - destruct (utf8_valid q) eqn:Hq; [|split; [reflexivity|now right]].
    destruct (api_key_param_total (str_split "&" q)) as [[v|] ->];
      split; auto.
  - split; [reflexivity|]. intros; contradiction.
Qed.

Lemma in_range_ascii c : byte_val c < 128 -> in_range 0 127 c = true.
Proof.
  intros H. unfold in_range.
  assert (0 <= byte_val c) by (unfold byte_val; lia).
  destruct (Z.leb_spec 0 (byte_val c)), (Z.leb_spec (byte_val c) 127);
    try reflexivity; lia.
Qed.

Lemma ascii_is_utf8 s : is_ascii s = true -> utf8_valid s = true.
Proof.
  induction s as [|c r IH]; [reflexivity|].
  cbn [is_ascii utf8_valid]. intros H. apply andb_true_iff in H as [Hc Hr].
  apply Z.ltb_lt in Hc. rewrite (in_range_ascii c Hc). auto.
Qed.

(** X21. A request whose [x-api-key] header value and query string are
    plain ASCII always gets through: a key is read, possibly the empty
    one, the application runs with it, and its outcome is the outcome of
    the request. *)
Theorem ascii_requests_get_through (app : scope -> M unit) sc w :
  scope_type sc = "http" ->
  is_ascii (header_value sc) = true ->
  is_ascii (scope_get_query_string sc) = true ->
  exists k,
    request_api_key sc = inr k /\
    fst (APIKeyMiddleware_call app sc w)
    = fst (app sc (with_api_key (Some k) w)).
Proof.
  intros Hhttp Hh Hq.
  apply ascii_is_utf8 in Hh. apply ascii_is_utf8 in Hq.
  pose proof (key_extraction sc) as H.
  destruct (request_api_key sc) as [e|k] eqn:Hk.
  - exfalso. destruct H as [Hhf | [_ Hqf]]; congruence.
  - exists k. split; [reflexivity|]. apply middleware_outcome; assumption.
Qed.

Lemma ascii_requests_get_through_witness :
  exists k,
    request_api_key (Scope "http" (Some [("accept", "*/*")])
                           (Some "page=2&api_key=k9")) = inr k /\
    fst (APIKeyMiddleware_call failing_app
           (Scope "http" (Some [("accept", "*/*")]) (Some "page=2&api_key=k9"))
           quiet_world)
    = fst (failing_app
             (Scope "http" (Some [("accept", "*/*")]) (Some "page=2&api_key=k9"))
             (with_api_key (Some k) quiet_world)).
Proof.
  exact (ascii_requests_get_through
           failing_app
           (Scope "http" (Some [("accept", "*/*")]) (Some "page=2&api_key=k9"))
           quiet_world eq_refl eq_refl eq_refl).
Defined.

(** ** The key taken from the query string *)

Lemma str_split_nonempty sep s : str_split sep s <> [].
Proof.
  destruct s as [|c r]; cbn; [discriminate|].
  destruct (Ascii.eqb c sep); [discriminate|].
  destruct (str_split sep r); discriminate.
Qed.

Lemma str_join_cons_char sep c p ps :
  str_join sep (String c p :: ps) = String c (str_join sep (p :: ps)).
Proof. destruct ps; reflexivity. Qed.

(** Joining the pieces of a split gives the string back. *)
Lemma str_join_split sep s : str_join (String sep "") (str_split sep s) = s.
Proof.
  induction s as [|c r IH]; [reflexivity|]. cbn [str_split].
  destruct (Ascii.eqb_spec c sep) as [->|Hne].
  - pose proof (str_split_nonempty sep r) as Hn.
    destruct (str_split sep r) as [|p ps]; [congruence|].
    change (str_join (String sep "") ("" :: p :: ps))
      with (String sep (str_join (String sep "") (p :: ps))).
    now rewrite IH.
  - pose proof (str_split_nonempty sep r) as Hn.
    destruct (str_split sep r) as [|p ps]; [congruence|].
    rewrite str_join_cons_char. now rewrite IH.
Qed.

(** No piece of a split holds the separator. *)
Lemma str_split_sep_free sep s :
  Forall (fun x => has_char sep x = false) (str_split sep s).
Proof.
  induction s as [|c r IH]; cbn [str_split]; [repeat constructor|].
  destruct (Ascii.eqb c sep) eqn:Hc.
  - constructor; [reflexivity|exact IH].
  - destruct (str_split sep r) as [|p ps]; inversion IH; subst.
    + repeat constructor. cbn. now rewrite Hc.
    + constructor; [|assumption]. cbn. now rewrite Hc.
Qed.

Lemma api_key_param_first pieces v :
  api_key_param pieces = inr (Some v) ->
  exists before after,
    pieces = (before ++ ("api_key=" ++ v)%string :: after)%list /\
    Forall (fun f => startswith f "api_key=" = false) before.
Proof.
  induction pieces as [|param rest IH]; cbn [api_key_param]; [discriminate|].
  destruct (startswith param "api_key=") eqn:Hp.
  - destruct (startswith_api_key param Hp) as [v' ->]. cbn.
    intros H. inversion H; subst.
    exists [], rest. split; [reflexivity|constructor].
  - intros H. destruct (IH H) as (before & after & -> & Hb).
    exists (param :: before), after. split; [reflexivity|].
    constructor; assumption.
Qed.

(** X22. When the header gives no key, the key the middleware reads is
    taken from the query string as follows: it never contains ["&"], and
    whenever it is not empty the query string is the ["&"]-joined list of
    its fields, none of which contains ["&"], and among these fields the
    first one that starts with ["api_key="] is ["api_key="] followed by
    exactly that key.  Nothing is decoded or trimmed on the way. *)
Theorem query_key_is_first_api_key_field sc k :
  header_value sc = "" ->
  request_api_key sc = inr k ->
  has_char "&" k = false /\
  (k <> "" ->
   exists before after,
     scope_get_query_string sc
     = str_join "&" (before ++ ("api_key=" ++ k) :: after) /\
     Forall (fun f => has_char "&" f = false)
            (before ++ ("api_key=" ++ k) :: after) /\
     Forall (fun f => startswith f "api_key=" = false) before).
Proof.
  unfold request_api_key, decode_utf8, header_value. cbv zeta.
  generalize (scope_get_query_string sc). intros q Hh. rewrite Hh.
  cbn [utf8_valid truthy negb String.eqb].
  destruct (utf8_valid q); [|discriminate].
  destruct (api_key_param (str_split "&" q)) as [e|[v|]] eqn:Hp;
    [discriminate| |].
  - intros H. inversion H; subst v.
    destruct (api_key_param_first _ _ Hp) as (before & after & Hsplit & Hb).
    pose proof (str_split_sep_free "&" q) as Hfree.
    rewrite Hsplit in Hfree.
    pose proof Hfree as Hall.
    apply Forall_app in Hfree as [_ Hfree].
    inversion Hfree as [|? ? Hk _]; subst. cbn in Hk.
    split; [exact Hk|]. intros _. exists before, after.
    split; [|split; [exact Hall|exact Hb]].
    rewrite <- Hsplit. symmetry. apply str_join_split.
  - intros H. inversion H; subst. split; [reflexivity|]. congruence.
Qed.

(** The fields are pinned down by the query string: the second
    [api_key] field is not the key. *)
Lemma query_key_is_first_api_key_field_witness :
  has_char "&" "k9" = false /\
  exists before after,
    "page=2&api_key=k9&api_key=other"
    = str_join "&" (before ++ ("api_key=" ++ "k9") :: after) /\
    Forall (fun f => has_char "&" f = false)
           (before ++ ("api_key=" ++ "k9") :: after) /\
    Forall (fun f => startswith f "api_key=" = false) before.
Proof.
  destruct (query_key_is_first_api_key_field
              (Scope "http" (Some [("accept", "*/*")])
                     (Some "page=2&api_key=k9&api_key=other"))
              "k9" eq_refl eq_refl) as [H1 H2].
  split; [exact H1|]. apply H2. discriminate.
Defined.

(** ** Every task cleans up *)

Lemma task_step_clean t w : task_clean t -> task_clean (fst (task_step t w)).
Proof.
  destruct t as [sc app ctx st calls].
  unfold task_clean, task_step.
  cbn [t_scope t_app t_context t_state t_calls].
  set (w0 := with_api_key ctx w).
  destruct st as [|token todo|res]; unfold next_segment;
    cbn [t_scope t_app t_context t_state t_calls].
  - intros ->. destruct (String.eqb (scope_type sc) "http").
    + unfold_m. destruct (request_api_key sc) as [e|k]; reflexivity.
    + reflexivity.
  - destruct todo as [|st todo].
    + destruct token as [tok|]; cbn; auto.
    + pose proof (run_app_step_context st w0) as Hctx.
      destruct (run_app_step st w0) as [[e|[]] w1]; cbn [fst snd] in *.
      * destruct token as [tok|]; cbn; [auto|]. intros H. now rewrite Hctx.
      * destruct token as [tok|]; cbn; [auto|]. intros H. now rewrite Hctx.
  - auto.
Qed.

Lemma task_step_world_context t w :
  _current_api_key (snd (task_step t w)) = _current_api_key w.
Proof.
  unfold task_step.
  destruct (next_segment t (with_api_key (t_context t) w)); reflexivity.
Qed.

Lemma sys_step_world s i :
  sys_world (sys_step s i) = snd (task_step (sys_tasks s i) (sys_world s)).
Proof.
  unfold sys_step.
  destruct (task_step (sys_tasks s i) (sys_world s)); reflexivity.
Qed.

Lemma run_schedule_clean schedule : forall s,
  _current_api_key (sys_world s) = None ->
  (forall i, task_clean (sys_tasks s i)) ->
  _current_api_key (sys_world (run_schedule schedule s)) = None /\
  forall i, task_clean (sys_tasks (run_schedule schedule s) i).
Proof.
  induction schedule as [|j schedule IH]; intros s Hw Hc; [auto|].
  cbn. apply IH.
  - rewrite sys_step_world, task_step_world_context. exact Hw.
  - intros i. rewrite sys_step_task.
    destruct (Nat.eqb i j); [apply task_step_clean|]; apply Hc.
Qed.

(** X23. Under any schedule of any number of concurrent requests, the
    variable stays unset in the server's own context, and every task
    that has finished, normally or with an exception, has left its own
    context with the variable unset. *)
Theorem concurrent_tasks_clean_up s schedule (i : nat) res :
  initial s ->
  t_state (sys_tasks (run_schedule schedule s) i) = Finished res ->
  _current_api_key (sys_world (run_schedule schedule s)) = None /\
  t_context (sys_tasks (run_schedule schedule s) i) = None.
Proof.
  intros [Hw Hnew] Hfin.
  destruct (run_schedule_clean schedule s Hw) as [H1 H2].
  { intros j. rewrite Hnew. exact Hw. }
  split; [exact H1|].
  specialize (H2 i). unfold task_clean in H2. now rewrite Hfin in H2.
Qed.

Lemma concurrent_tasks_clean_up_witness :
  _current_api_key (sys_world (run_schedule interleaved two_requests)) = None /\
  t_context (sys_tasks (run_schedule interleaved two_requests) 1) = None.
Proof.
  exact (concurrent_tasks_clean_up two_requests interleaved 1 (inr tt)
           two_requests_initial ltac:(vm_compute; reflexivity)).
Defined.

(** ** What the decoder raises *)

Lemma oversized_world_ordinary : ordinary_faults oversized_world.
Proof. intros op e H. discriminate H. Qed.

(** X24. An exception that [resp.json()] raises and that is not one of
    the HTTP library's ([ValueError] for an integer literal beyond the
    limit of digits, [RecursionError] for nesting too deep) is not
    caught: it leaves [_api_get] as it is, and with it every tool, which
    then returns no text. *)
Theorem decoder_exceptions_reach_the_caller (c : tool_call) w resp e :
  ordinary_faults w ->
  (forall history r, backend w history r = HttpResponds resp) ->
  ~ 400 <= status_code resp < 600 ->
  body resp = inl e ->
  is_RequestException e = false ->
  (forall path params, fst (_api_get path params w) = inl e) /\
  fst (dispatch c w) = inl e.
Proof.
  intros Hord Hb Hst Hbody He.
  assert (Hget : forall path params, fst (_api_get path params w) = inl e).
  { intros path params.
    rewrite _api_get_result, Hb, raise_for_status_pass, Hbody, He
      by assumption.
    reflexivity. }
  split; [exact Hget|].
  rewrite dispatch_result, Hget by assumption. reflexivity.
Qed.

Lemma decoder_exceptions_reach_the_caller_witness :
  fst (dispatch (Call_get_news "" "" 10) oversized_world)
  = inl (Exn ValueError
             "Exceeds the limit (4300 digits) for integer string conversion").
Proof.
  exact (proj2 (decoder_exceptions_reach_the_caller
                  (Call_get_news "" "" 10) oversized_world oversized
                  (Exn ValueError
                       "Exceeds the limit (4300 digits) for integer string conversion")
                  oversized_world_ordinary (fun _ _ => eq_refl)
                  ltac:(cbn; lia) eq_refl eq_refl)).
Defined.
